(** * Poloniex client: request signing, executors, candlestick and
    trade-history wrappers, and the ticker stream dispatcher.

    A shallow embedding of [poloniex/api.py], [poloniex/px.py],
    [poloniex/utils.py] and [poloniex/settings.py], with the parts of
    hashlib, hmac, urllib and requests they rest on.

    Conventions.
    - A Python [str] is a Rocq [string] holding its UTF-8 bytes; this is the
      form [urlencode] and [str.encode('utf-8')] work on.
    - [bytes] are lists of integers in [0, 256).
    - A [dict] is an association list in insertion order with unique keys.
    - Effects (clock, credential file, rate limiter, HTTP, logging) are
      threaded through an explicit state with a log of what was performed. *)

From Stdlib Require Import ZArith List String Ascii Bool Lia QArith.
From Stdlib Require Import Lqa.
From Stdlib Require Import DecimalString.
Import ListNotations.
Open Scope string_scope.
Open Scope list_scope.
Open Scope Z_scope.

(* ================================================================== *)
(** ** Bytes and text *)

Module Bytes.

Definition bytes := list Z.

(** [s.encode('utf-8')] on the representation above. *)
Definition encode (s : string) : bytes :=
  map (fun c => Z.of_N (N_of_ascii c)) (list_ascii_of_string s).

Definition hexdigit (n : Z) : ascii :=
  if n <? 10 then ascii_of_N (Z.to_N (48 + n))
  else ascii_of_N (Z.to_N (87 + n)).

Definition HEXDIGIT (n : Z) : ascii :=
  if n <? 10 then ascii_of_N (Z.to_N (48 + n))
  else ascii_of_N (Z.to_N (55 + n)).

(** [bytes.hex()]: two lowercase digits per byte. *)
Fixpoint hex (b : bytes) : string :=
  match b with
  | [] => EmptyString
  | x :: r => String (hexdigit (x / 16)) (String (hexdigit (x mod 16)) (hex r))
  end.

(** Big-endian bytes of [x], [n] of them. *)
Fixpoint be_bytes (n : nat) (x : Z) : bytes :=
  match n with
  | O => []
  | S k => (Z.shiftr x (8 * Z.of_nat k)) mod 256 :: be_bytes k x
  end.

Fixpoint be_word (b : bytes) (acc : Z) : Z :=
  match b with
  | [] => acc
  | x :: r => be_word r (acc * 256 + x)
  end.

(** Cut [l] into pieces of [n] elements (the last one may be shorter). *)
Fixpoint chunks {A} (fuel n : nat) (l : list A) : list (list A) :=
  match fuel with
  | O => []
  | S f =>
      match l with
      | [] => []
      | _ => firstn n l :: chunks f n (skipn n l)
      end
  end.

End Bytes.
Import Bytes.

(* ================================================================== *)
(** ** hashlib.sha512 (FIPS 180-4) *)

Module SHA512.

Definition w64 : Z := 2 ^ 64.
Definition add (x y : Z) : Z := (x + y) mod w64.
Definition rotr (n x : Z) : Z :=
  Z.lor (Z.shiftr x n) ((Z.shiftl x (64 - n)) mod w64).
Definition shr (n x : Z) : Z := Z.shiftr x n.
Definition lnot64 (x : Z) : Z := w64 - 1 - x.

Definition Ch (x y z : Z) := Z.lxor (Z.land x y) (Z.land (lnot64 x) z).
Definition Maj (x y z : Z) :=
  Z.lxor (Z.lxor (Z.land x y) (Z.land x z)) (Z.land y z).
Definition Sigma0 x := Z.lxor (Z.lxor (rotr 28 x) (rotr 34 x)) (rotr 39 x).
Definition Sigma1 x := Z.lxor (Z.lxor (rotr 14 x) (rotr 18 x)) (rotr 41 x).
Definition sigma0 x := Z.lxor (Z.lxor (rotr 1 x) (rotr 8 x)) (shr 7 x).
Definition sigma1 x := Z.lxor (Z.lxor (rotr 19 x) (rotr 61 x)) (shr 6 x).

Definition K : list Z :=
  [ 0x428a2f98d728ae22; 0x7137449123ef65cd; 0xb5c0fbcfec4d3b2f; 0xe9b5dba58189dbbc;
    0x3956c25bf348b538; 0x59f111f1b605d019; 0x923f82a4af194f9b; 0xab1c5ed5da6d8118;
    0xd807aa98a3030242; 0x12835b0145706fbe; 0x243185be4ee4b28c; 0x550c7dc3d5ffb4e2;
    0x72be5d74f27b896f; 0x80deb1fe3b1696b1; 0x9bdc06a725c71235; 0xc19bf174cf692694;
    0xe49b69c19ef14ad2; 0xefbe4786384f25e3; 0x0fc19dc68b8cd5b5; 0x240ca1cc77ac9c65;
    0x2de92c6f592b0275; 0x4a7484aa6ea6e483; 0x5cb0a9dcbd41fbd4; 0x76f988da831153b5;
    0x983e5152ee66dfab; 0xa831c66d2db43210; 0xb00327c898fb213f; 0xbf597fc7beef0ee4;
    0xc6e00bf33da88fc2; 0xd5a79147930aa725; 0x06ca6351e003826f; 0x142929670a0e6e70;
    0x27b70a8546d22ffc; 0x2e1b21385c26c926; 0x4d2c6dfc5ac42aed; 0x53380d139d95b3df;
    0x650a73548baf63de; 0x766a0abb3c77b2a8; 0x81c2c92e47edaee6; 0x92722c851482353b;
    0xa2bfe8a14cf10364; 0xa81a664bbc423001; 0xc24b8b70d0f89791; 0xc76c51a30654be30;
    0xd192e819d6ef5218; 0xd69906245565a910; 0xf40e35855771202a; 0x106aa07032bbd1b8;
    0x19a4c116b8d2d0c8; 0x1e376c085141ab53; 0x2748774cdf8eeb99; 0x34b0bcb5e19b48a8;
    0x391c0cb3c5c95a63; 0x4ed8aa4ae3418acb; 0x5b9cca4f7763e373; 0x682e6ff3d6b2b8a3;
    0x748f82ee5defb2fc; 0x78a5636f43172f60; 0x84c87814a1f0ab72; 0x8cc702081a6439ec;
    0x90befffa23631e28; 0xa4506cebde82bde9; 0xbef9a3f7b2c67915; 0xc67178f2e372532b;
    0xca273eceea26619c; 0xd186b8c721c0c207; 0xeada7dd6cde0eb1e; 0xf57d4f7fee6ed178;
    0x06f067aa72176fba; 0x0a637dc5a2c898a6; 0x113f9804bef90dae; 0x1b710b35131c471b;
    0x28db77f523047d84; 0x32caab7b40c72493; 0x3c9ebe0a15c9bebc; 0x431d67c49c100d4c;
    0x4cc5d4becb3e42b6; 0x597f299cfc657e2a; 0x5fcb6fab3ad6faec; 0x6c44198c4a475817 ].

Definition H0 : list Z :=
  [ 0x6a09e667f3bcc908; 0xbb67ae8584caa73b; 0x3c6ef372fe94f82b; 0xa54ff53a5f1d36f1;
    0x510e527fade682d1; 0x9b05688c2b3e6c1f; 0x1f83d9abfb41bd6b; 0x5be0cd19137e2179 ].

Definition block_size : nat := 128.

(** Padding: a 1 bit, zeros up to 112 mod 128, the bit length on 128 bits. *)
Definition pad (m : bytes) : bytes :=
  let len := Z.of_nat (List.length m) in
  let z := Z.to_nat ((111 - len) mod 128) in
  m ++ [128] ++ repeat 0 z ++ be_bytes 16 (8 * len).

(** The message schedule, newest word first: [rev_w] holds W[t-1], W[t-2], ... *)
Fixpoint schedule (n : nat) (rev_w : list Z) : list Z :=
  match n with
  | O => rev_w
  | S k =>
      let w2 := nth 1 rev_w 0 in
      let w7 := nth 6 rev_w 0 in
      let w15 := nth 14 rev_w 0 in
      let w16 := nth 15 rev_w 0 in
      schedule k (add (add (sigma1 w2) w7) (add (sigma0 w15) w16) :: rev_w)
  end.

Record regs := Regs { ra : Z; rb : Z; rc : Z; rd : Z; re : Z; rf : Z; rg : Z; rh : Z }.

Definition round (s : regs) (kw : Z * Z) : regs :=
  let '(k, w) := kw in
  let t1 := add (add (add (rh s) (Sigma1 (re s))) (add (Ch (re s) (rf s) (rg s)) k)) w in
  let t2 := add (Sigma0 (ra s)) (Maj (ra s) (rb s) (rc s)) in
  Regs (add t1 t2) (ra s) (rb s) (rc s) (add (rd s) t1) (re s) (rf s) (rg s).

Definition regs_of (h : list Z) : regs :=
  Regs (nth 0 h 0) (nth 1 h 0) (nth 2 h 0) (nth 3 h 0)
       (nth 4 h 0) (nth 5 h 0) (nth 6 h 0) (nth 7 h 0).

(** The registers as the list a, ..., h. *)
Definition variables (s : regs) : list Z :=
  [ra s; rb s; rc s; rd s; re s; rf s; rg s; rh s].

Definition compress (h : list Z) (block : bytes) : list Z :=
  let w16 := map (fun b => be_word b 0) (chunks 16 8 block) in
  let w := rev (schedule 64 (rev w16)) in
  let s0 := regs_of h in
  let s := fold_left round (combine K w) s0 in
  [ add (ra s0) (ra s); add (rb s0) (rb s); add (rc s0) (rc s); add (rd s0) (rd s);
    add (re s0) (re s); add (rf s0) (rf s); add (rg s0) (rg s); add (rh s0) (rh s) ].

Definition digest (m : bytes) : bytes :=
  let p := pad m in
  let h := fold_left compress (chunks (List.length p) block_size p) H0 in
  flat_map (be_bytes 8) h.

End SHA512.

(* ================================================================== *)
(** ** hmac (the module's own construction over a hash object) *)

Module HMAC.

(** A hash object: what has been fed to it so far. *)
Record hasher := Hasher { fed : bytes }.
Definition new_hasher : hasher := Hasher [].
Definition h_update (h : hasher) (b : bytes) : hasher := Hasher (fed h ++ b).
Definition h_digest (h : hasher) : bytes := SHA512.digest (fed h).

(** The HMAC object of [hmac.new]: an inner and an outer hash object. *)
Record hmac_obj := HmacObj { inner : hasher; outer : hasher }.

Definition translate (x : Z) (b : bytes) : bytes := map (Z.lxor x) b.

(** [hmac.new(key, msg, hashlib.sha512)]: a key longer than a block is hashed
    first, the key is padded with zeros to the block size, the two
    objects are started on the key xor 0x36 and xor 0x5C, and [msg] goes to
    the inner one. *)
Definition new (key msg : bytes) : hmac_obj :=
  let key1 :=
    if (SHA512.block_size <? List.length key)%nat then SHA512.digest key else key in
  let key2 := key1 ++ repeat 0 (SHA512.block_size - List.length key1) in
  let o := h_update new_hasher (translate 0x5C key2) in
  let i := h_update new_hasher (translate 0x36 key2) in
  HmacObj (h_update i msg) o.

Definition digest (h : hmac_obj) : bytes :=
  h_digest (h_update (outer h) (h_digest (inner h))).

Definition hexdigest (h : hmac_obj) : string := hex (digest h).

(** What the two hash objects compute, in one expression. *)
Definition pad_key (key : bytes) : bytes :=
  let k := if (SHA512.block_size <? List.length key)%nat then SHA512.digest key else key in
  k ++ repeat 0 (SHA512.block_size - List.length k).

Definition hmac_sha512 (key text : bytes) : bytes :=
  SHA512.digest (translate 0x5C (pad_key key)
                 ++ SHA512.digest (translate 0x36 (pad_key key) ++ text)).

End HMAC.

(* ================================================================== *)
(** ** Python values, dicts and urllib.parse.urlencode *)

Module Py.

(** The values the endpoint wrappers put into a parameter mapping.
    (Float parameters are left out: their text is [repr(float)].) *)
Inductive value :=
| VStr (s : string)
| VInt (n : Z)
| VBool (b : bool)
| VNone.

(** [str(v)] *)
Definition str_of_int (n : Z) : string := NilZero.string_of_int (Z.to_int n).

Definition str (v : value) : string :=
  match v with
  | VStr s => s
  | VInt n => str_of_int n
  | VBool true => "True"
  | VBool false => "False"
  | VNone => "None"
  end.

(** [s.upper()] on the letters a-z (the alphabet of currency codes); a
    letter outside a-z is left as it is here, where Python raises it too. *)
Definition upper_ascii (c : ascii) : ascii :=
  let n := N_of_ascii c in
  if ((97 <=? n) && (n <=? 122))%N then ascii_of_N (n - 32) else c.

Fixpoint upper (s : string) : string :=
  match s with
  | EmptyString => EmptyString
  | String c r => String (upper_ascii c) (upper r)
  end.

(** A dict: items in insertion order, keys unique. *)
Definition dict (V : Type) := list (string * V).

Fixpoint get {V} (d : dict V) (k : string) : option V :=
  match d with
  | [] => None
  | (k', v) :: r => if String.eqb k' k then Some v else get r k
  end.

(** [d[k] = v]: an existing key keeps its place, a new one goes last. *)
Fixpoint set {V} (d : dict V) (k : string) (v : V) : dict V :=
  match d with
  | [] => [(k, v)]
  | (k', v') :: r =>
      if String.eqb k' k then (k', v) :: r else (k', v') :: set r k v
  end.

Definition keys {V} (d : dict V) : list string := map fst d.

(** *** quote, quote_plus, urlencode *)

Definition always_safe (c : ascii) : bool :=
  let n := N_of_ascii c in
  (((65 <=? n) && (n <=? 90)) || ((97 <=? n) && (n <=? 122))
   || ((48 <=? n) && (n <=? 57))
   || (n =? 95) || (n =? 46) || (n =? 45) || (n =? 126))%N.

Definition in_string (c : ascii) (s : string) : bool :=
  existsb (Ascii.eqb c) (list_ascii_of_string s).

(** [quote(s, safe)]: bytes outside the safe set become %XX. *)
Fixpoint quote (safe : string) (s : string) : string :=
  match s with
  | EmptyString => EmptyString
  | String c r =>
      if always_safe c || in_string c safe then String c (quote safe r)
      else
        let n := Z.of_N (N_of_ascii c) in
        String "%" (String (HEXDIGIT (n / 16)) (String (HEXDIGIT (n mod 16))
                                                       (quote safe r)))
  end.

Fixpoint replace_char (a b : ascii) (s : string) : string :=
  match s with
  | EmptyString => EmptyString
  | String c r => String (if Ascii.eqb c a then b else c) (replace_char a b r)
  end.

Definition quote_plus (s : string) : string :=
  if negb (in_string " " s) then quote "" s
  else replace_char " " "+" (quote " " s).

Fixpoint join (sep : string) (l : list string) : string :=
  match l with
  | [] => EmptyString
  | [x] => x
  | x :: r => (x ++ sep ++ join sep r)%string
  end.

(** [urlencode(query)] with the defaults: [quote_plus] of [str] of every key and
    value, pairs joined by [&]. *)
Definition urlencode (query : dict value) : string :=
  join "&" (map (fun '(k, v) => (quote_plus k ++ "=" ++ quote_plus (str v))%string)
                query).

End Py.

(* ================================================================== *)
(** ** requests: the body of a POST *)

Module Requests.
Import Py.

Definition has_value (kv : string * value) : bool :=
  match snd kv with
  | VNone => false
  | _ => true
  end.

(** [RequestEncodingMixin._encode_params(data)] for a dict of strings,
    numbers, booleans and None: the items whose value is None are left out,
    and what remains goes through [urlencode] (whose [doseq] mode treats such
    values as the plain mode does). *)
Definition _encode_params (data : dict value) : string :=
  urlencode (filter has_value data).

(** The body of [post(url, headers=..., data=data)] as it goes out. *)
Definition body (data : dict value) : bytes := encode (_encode_params data).

End Requests.

(* ================================================================== *)
(** ** Exceptions and the effect monad *)

Inductive exn :=
| SecretKeyError (msg : string)   (* subclass of PoloniexError *)
| PoloniexError (msg : string)
| OSError                         (* open() on a missing or unreadable file *)
| ValueError                      (* a body or file that is not JSON *)
| AttributeError
| KeyError
| IndexError
| TypeError
| RequestException.               (* the transport could not complete *)

Inductive result (A : Type) :=
| Ok (a : A)
| Raise (e : exn).
Arguments Ok {A} a.
Arguments Raise {A} e.

(** JSON documents as [json.load] returns them. *)
Unset Elimination Schemes.
Inductive json :=
| JNull
| JBool (b : bool)
| JInt (n : Z)
| JFloat (q : Q)                  (* a finite float *)
| JNonFinite                      (* NaN, Infinity, -Infinity *)
| JStr (s : string)
| JList (l : list json)
| JObj (o : Py.dict json).
Set Elimination Schemes.

(** [bool(x)] *)
Definition truthy (x : json) : bool :=
  match x with
  | JNull => false
  | JBool b => b
  | JInt n => negb (n =? 0)
  | JFloat q => negb (Qeq_bool q 0)
  | JNonFinite => true
  | JStr s => negb (String.eqb s "")
  | JList l => match l with [] => false | _ => true end
  | JObj o => match o with [] => false | _ => true end
  end.

(** [x == n] for an int [n]: numbers compare by value, [True] is 1 and
    [False] is 0, everything else differs from every int. *)
Definition eq_int (x : json) (n : Z) : bool :=
  match x with
  | JInt m => m =? n
  | JBool b => (if b then 1 else 0) =? n
  | JFloat q => Qeq_bool q (inject_Z n)
  | _ => false
  end.

Section Monad.
Context {R S : Type}.

(** A computation reads the surroundings [R], threads a state [S] and
    returns or raises; the state survives an exception. *)
Definition M (A : Type) := R -> S -> result A * S.

Definition ret {A} (a : A) : M A := fun _ s => (Ok a, s).
Definition raise {A} (e : exn) : M A := fun _ s => (Raise e, s).
Definition bind {A B} (m : M A) (f : A -> M B) : M B :=
  fun r s =>
    match m r s with
    | (Ok a, s') => f a r s'
    | (Raise e, s') => (Raise e, s')
    end.
Definition ask : M R := fun r s => (Ok r, s).
Definition get_state : M S := fun _ s => (Ok s, s).
Definition put_state (s : S) : M unit := fun _ _ => (Ok tt, s).
Definition lift {A} (x : result A) : M A := fun _ s => (x, s).

End Monad.
Arguments M : clear implicits.

Notation "x <- m ;; k" := (bind m (fun x => k))
  (at level 61, m at next level, right associativity).
Notation "m ;;; k" := (bind m (fun _ => k))
  (at level 61, right associativity).

(* ================================================================== *)
(** ** settings.py *)

Module settings.

Definition ws_fields_in_order : list string :=
  [ "id"; "last"; "lowestAsk"; "highestBid"; "percentChange"; "baseVolume";
    "quoteVolume"; "isFrozen"; "high24hr"; "low24hr" ].

Definition trading_url : string := "https://poloniex.com/tradingApi".
Definition public_url : string := "https://poloniex.com/public?".

End settings.

(* ================================================================== *)
(** ** utils.py: the rate limiter

    Times are the rationals the floats stand for and their differences are
    exact. The lock is taken first and released last, so calls take turns:
    a run is a sequence of calls. [instant n] is the [n]-th instant the
    wrapper meets: a reading of [time.perf_counter()], or the moment it
    calls the wrapped function. *)

Module Utils.

(** A call as the world saw it: the reading on entry, the time
    [time.sleep] was asked for when it was, and the moment the wrapped
    function began. *)
Record call := Call {
  entered : Q;
  slept : option Q;
  began : Q
}.

(** The closure of a decorated function: [min_interval] and the nonlocal
    [last_time_called]; next to them the number of instants met so far
    and the calls made, oldest first. *)
Record limiter := Limiter {
  min_interval : Q;
  last_time_called : Q;
  met : nat;
  calls : list call
}.


(** [rate_limited_function], [func_result] being what
    the wrapped function returns or raises: the [finally] clause records the
    time in both cases. *)
Definition rate_limited_function {A} (func_result : result A)
           (instant : nat -> Q) (l : limiter) : result A * limiter :=
  let now := instant (met l) in
  let elapsed := (now - last_time_called l)%Q in
  let left_to_wait := (min_interval l - elapsed)%Q in
  let slept := if Qle_bool left_to_wait 0 then None else Some left_to_wait in
  let began := instant (S (met l)) in
  let finished := instant (S (S (met l))) in
  (func_result,
   Limiter (min_interval l) finished (3 + met l)
           (calls l ++ [Call now slept began])).

(** [api.block]: the rate limited function that does nothing. *)
Definition block (instant : nat -> Q) (l : limiter) : result unit * limiter :=
  rate_limited_function (Ok tt) instant l.




End Utils.

(* ================================================================== *)
(** ** api.py *)

Module Api.
Import Py.

Definition MINUTE : Z := 60.
Definition HOUR : Z := MINUTE * 60.
Definition DAY : Z := HOUR * 24.
Definition MONTH : Z := DAY * 30.

(** [sign(secret, data)] *)
Definition sign (secret : string) (data : dict value) : string :=
  HMAC.hexdigest (HMAC.new (encode secret) (encode (urlencode data))).

(** What a call did to the outside, oldest first. *)
Inductive event :=
| OpenSecrets                      (* open(secret_json_path) and json.load *)
| ReadClock                        (* time() *)
| Block                            (* block(), the rate limited no-op *)
| HttpGet (url : string)
| HttpPost (url : string) (headers : dict json) (data : dict value).

(** What [open] and [json.load] find at [secret_json_path]. *)
Inductive secret_source :=
| NoFile
| NotJson
| Loaded (j : json).

(** What the transport gives back: no response at all, or a response whose
    body decodes to a JSON document or does not. *)
Inductive reply :=
| Failed
| Replied (body : option json).

(** The surroundings of a client. [clock n] is the [n]-th reading of [time()],
    a float, hence a rational; [float_round] rounds an exact product to the
    nearest float and, as rounding does, keeps order (products are taken to
    stay in the range of finite floats); [server] answers a request given
    everything done so far, the request included. *)
Record env := Env {
  clock : nat -> Q;
  float_round : Q -> Q;
  float_round_mono :
    forall x y : Q, (x <= y)%Q -> (float_round x <= float_round y)%Q;
  secret_file : secret_source;
  server : list event -> reply
}.

(** Rounding that changes nothing, for worlds whose products are exact. *)
Definition exact (q : Q) : Q := q.
Definition exact_mono (x y : Q) (H : (x <= y)%Q) : (exact x <= exact y)%Q := H.

(** The attributes of a [Poloniex] instance that the calls read or write. *)
Record client := Client {
  px_key : json;
  px_secret : json;
  rate_limit : bool
}.

Record state := State {
  self : client;
  reads : nat;                     (* clock readings taken so far *)
  log : list event
}.

Definition API := M env state.

Definition emit (e : event) : API unit :=
  fun _ s => (Ok tt, State (self s) (reads s) (log s ++ [e])).

(** [time()] *)
Definition time : API Q :=
  fun w s => (Ok (clock w (reads s)),
              State (self s) (S (reads s)) (log s ++ [ReadClock])).

(** [int(x)] of a float: truncation towards zero. *)
Definition int_of_float (x : Q) : Z := Z.quot (Qnum x) (Zpos (Qden x)).

(** [x * 1000] in floating point. *)
Definition float_mul (w : env) (x y : Q) : Q := float_round w (x * y)%Q.

(** [response.json()] of the response to a [get] or a [post] *)
Definition http (request : event) : API json :=
  emit request ;;;
  w <- ask ;;
  s <- get_state ;;
  match server w (log s) with
  | Failed => raise RequestException
  | Replied None => raise ValueError
  | Replied (Some j) => ret j
  end.

(** [Poloniex._rate_limit_block] *)
Definition _rate_limit_block : API unit :=
  s <- get_state ;;
  if rate_limit (self s) then emit Block else ret tt.

(** [Poloniex._public_api] *)
Definition _public_api (kwargs : dict value) : API json :=
  let url := (settings.public_url ++ urlencode kwargs)%string in
  _rate_limit_block ;;;
  http (HttpGet url).

Definition obj_get (j : json) (k : string) : API json :=
  match j with
  | JObj d => ret (match get d k with Some v => v | None => JNull end)
  | _ => raise AttributeError
  end.

(** [Poloniex._check_secrets] *)
Definition _check_secrets : API unit :=
  s <- get_state ;;
  if truthy (px_key (self s)) && truthy (px_secret (self s)) then ret tt
  else
    emit OpenSecrets ;;;
    w <- ask ;;
    data <- match secret_file w with
            | NoFile => raise OSError
            | NotJson => raise ValueError
            | Loaded j => ret j
            end ;;
    key <- obj_get data "key" ;;
    secret <- obj_get data "secret" ;;
    if negb (truthy key) then
      raise (SecretKeyError "poloniex secrets module is missing key value")
    else if negb (truthy secret) then
      raise (SecretKeyError "poloniex secrets module is missing secret value")
    else
      s <- get_state ;;
      put_state (State (Client key secret (rate_limit (self s))) (reads s) (log s)).

(** [secret.encode('utf-8')] exists for a [str] only. *)
Definition sign_with (secret : json) (data : dict value) : API string :=
  match secret with
  | JStr s => ret (sign s data)
  | _ => raise AttributeError
  end.

(** [int(time() * 1000)] *)
Definition nonce_at (w : env) (t : Q) : Z := int_of_float (float_mul w t 1000).

(** [Poloniex._trading_api] *)
Definition _trading_api (kwargs : dict value) : API json :=
  _check_secrets ;;;
  w <- ask ;;
  t <- time ;;
  let kwargs := set kwargs "nonce" (VInt (nonce_at w t)) in
  s <- get_state ;;
  sig <- sign_with (px_secret (self s)) kwargs ;;
  let headers := [("Sign", JStr sig); ("Key", px_key (self s))] in
  _rate_limit_block ;;;
  http (HttpPost settings.trading_url headers kwargs).

Definition candle_periods : list Z := [300; 900; 1800; 7200; 14400; 86400].

(** [x > 0 and x or <default>], the default being evaluated only if needed. *)
Definition positive_or (x : Z) (default : API Z) : API Z :=
  if 0 <? x then ret x else default.

(** [Poloniex.chart_data] *)
Definition chart_data (pair : string) (start end_ period : Z) : API json :=
  if negb (existsb (Z.eqb period) candle_periods) then
    raise (PoloniexError (str_of_int period ++ " invalid candle period"))
  else
    start' <- positive_or start (t <- time ;; ret (int_of_float t - DAY)) ;;
    end' <- positive_or end_ (t <- time ;; ret (int_of_float t)) ;;
    _public_api [ ("command", VStr "returnChartData");
                  ("currencyPair", VStr (upper pair));
                  ("start", VInt start');
                  ("end", VInt end') ].

(** The mapping [trade_history] hands to [_trading_api]. *)
Definition trade_history_kwargs (pair : string) (start end_ limit : Z)
  : dict value :=
  let limit := if 10000 <? limit then 500 else limit in
  let kwargs := [("currencyPair", VStr (upper pair))] in
  let kwargs := if 0 <? limit then set kwargs "limit" (VInt limit) else kwargs in
  let kwargs := if 0 <? start then set kwargs "start" (VInt start) else kwargs in
  let kwargs :=
    if (0 <? end_) && (start <? end_) then set kwargs "end" (VInt end_)
    else kwargs in
  ("command", VStr "returnTradeHistory") :: kwargs.

(** [Poloniex.trade_history] *)
Definition trade_history (pair : string) (start end_ limit : Z) : API json :=
  _trading_api (trade_history_kwargs pair start end_ limit).

(** Running a call on a client that has done nothing yet. *)
Definition fresh (c : client) : state := State c 0 [].

(** *** The endpoint wrappers

    Arguments that the wrappers pass on untouched are parameter values;
    an argument that goes through [str(...).upper()] is its text. *)

(** [bool(v)] *)
Definition value_truthy (v : value) : bool :=
  match v with
  | VStr s => negb (String.eqb s "")
  | VInt n => negb (n =? 0)
  | VBool b => b
  | VNone => false
  end.

(** [int(b)] of a flag *)
Definition int_of_flag (b : bool) : value := VInt (if b then 1 else 0).

(** [Poloniex.ticker] *)
Definition ticker : API json :=
  _public_api [("command", VStr "returnTicker")].

(** [Poloniex.volume24] *)
Definition volume24 : API json :=
  _public_api [("command", VStr "return24hVolume")].

(** [Poloniex.order_book] *)
Definition order_book (pair depth : value) : API json :=
  _public_api [ ("command", VStr "returnOrderBook");
                ("currencyPair", pair); ("depth", depth) ].

(** The mapping [public_trade_history] builds: [if start:] and [if end:]
    test for a non-zero number. *)
Definition public_trade_history_kwargs (pair : string) (start end_ : Z)
  : dict value :=
  let kwargs := [ ("command", VStr "returnTradeHistory");
                  ("currencyPair", VStr (upper pair)) ] in
  let kwargs := if negb (start =? 0) then set kwargs "start" (VInt start)
                else kwargs in
  if negb (end_ =? 0) then set kwargs "end" (VInt end_) else kwargs.

(** [Poloniex.public_trade_history] *)
Definition public_trade_history (pair : string) (start end_ : Z) : API json :=
  _public_api (public_trade_history_kwargs pair start end_).

(** [Poloniex.currencies] *)
Definition currencies : API json :=
  _public_api [("command", VStr "returnCurrencies")].

(** [Poloniex.loan_orders] *)
Definition loan_orders (currency : value) : API json :=
  _public_api [ ("command", VStr "returnLoanOrders");
                ("currency", currency); ("limit", VInt 5000) ].

(** [Poloniex.balances] *)
Definition balances : API json :=
  _trading_api [("command", VStr "returnBalances")].

(** [Poloniex.open_orders] *)
Definition open_orders (pair : string) : API json :=
  _trading_api [ ("command", VStr "returnOpenOrders");
                 ("currencyPair", VStr (upper pair)) ].

(** [Poloniex.order_trades] *)
Definition order_trades (order_number : value) : API json :=
  _trading_api [ ("command", VStr "returnOrderTrades");
                 ("orderNumber", VStr (str order_number)) ].

(** The mapping of [buy] and [sell], which differ in the command only. *)
Definition order_kwargs (command pair : string) (rate amount : value)
           (fill_or_kill immediate_or_cancel post_only : bool) : dict value :=
  [ ("command", VStr command); ("currencyPair", VStr (upper pair));
    ("rate", rate); ("amount", amount);
    ("fillOrKill", int_of_flag fill_or_kill);
    ("immediateOrCancel", int_of_flag immediate_or_cancel);
    ("postOnly", int_of_flag post_only) ].

(** [Poloniex.buy] *)
Definition buy (pair : string) (rate amount : value)
           (fill_or_kill immediate_or_cancel post_only : bool) : API json :=
  _trading_api (order_kwargs "buy" pair rate amount
                             fill_or_kill immediate_or_cancel post_only).

(** [Poloniex.sell] *)
Definition sell (pair : string) (rate amount : value)
           (fill_or_kill immediate_or_cancel post_only : bool) : API json :=
  _trading_api (order_kwargs "sell" pair rate amount
                             fill_or_kill immediate_or_cancel post_only).

(** [Poloniex.cancel_order] *)
Definition cancel_order (order_number : value) : API json :=
  _trading_api [ ("command", VStr "cancelOrder");
                 ("orderNumber", VStr (str order_number)) ].

(** The mapping [move_order] builds, for a whole number [amount]. *)
Definition move_order_kwargs (order_number rate : value) (amount : Z)
           (immediate_or_cancel post_only : bool) : dict value :=
  let kwargs := [ ("command", VStr "moveOrder");
                  ("orderNumber", VStr (str order_number));
                  ("rate", VStr (str rate));
                  ("immediateOrCancel", int_of_flag immediate_or_cancel);
                  ("post_only", int_of_flag post_only) ] in
  if 0 <? amount then set kwargs "amount" (VInt amount) else kwargs.

(** [Poloniex.move_order] *)
Definition move_order (order_number rate : value) (amount : Z)
           (immediate_or_cancel post_only : bool) : API json :=
  _trading_api (move_order_kwargs order_number rate amount
                                  immediate_or_cancel post_only).

(** The mapping [withdraw] hands to [_trading_api]. *)
Definition withdraw_kwargs (currency : string) (amount address payment_id : value)
  : dict value :=
  let kwargs := [ ("currency", VStr (upper currency)); ("amount", amount);
                  ("address", VStr (str address)) ] in
  let kwargs := if value_truthy payment_id then set kwargs "paymentId" payment_id
                else kwargs in
  ("command", VStr "withdraw") :: kwargs.

(** [Poloniex.withdraw] *)
Definition withdraw (currency : string) (amount address payment_id : value)
  : API json :=
  _trading_api (withdraw_kwargs currency amount address payment_id).

(** The mapping [available_account_balances] builds. *)
Definition available_account_balances_kwargs (account : value) : dict value :=
  let kwargs := [("command", VStr "returnAvailableAccountBalances")] in
  if value_truthy account then set kwargs "account" account else kwargs.

(** [Poloniex.available_account_balances] *)
Definition available_account_balances (account : value) : API json :=
  _trading_api (available_account_balances_kwargs account).

(** [Poloniex.complete_balances] *)
Definition complete_balances (account : value) : API json :=
  _trading_api [ ("command", VStr "returnCompleteBalances");
                 ("account", VStr (str account)) ].

(** [Poloniex.deposit_addresses] *)
Definition deposit_addresses : API json :=
  _trading_api [("command", VStr "returnDepositAddresses")].

(** [Poloniex.generate_new_address] *)
Definition generate_new_address (currency : string) : API json :=
  _trading_api [ ("command", VStr "generateNewAddress");
                 ("currency", VStr (upper currency)) ].

(** [Poloniex.fee_info] *)
Definition fee_info : API json :=
  _trading_api [("command", VStr "returnFeeInfo")].

(** [Poloniex.tradable_balances] *)
Definition tradable_balances : API json :=
  _trading_api [("command", VStr "returnTradableBalances")].

(** [Poloniex.transfer_balance] *)
Definition transfer_balance (currency : string)
           (amount from_account to_account : value) : API json :=
  _trading_api [ ("command", VStr "transferBalance");
                 ("currency", VStr (upper currency)); ("amount", amount);
                 ("fromAccount", from_account); ("toAccount", to_account) ].

(** [Poloniex.margin_account_summary] *)
Definition margin_account_summary : API json :=
  _trading_api [("command", VStr "returnMarginAccountSummary")].

(** [Poloniex.margin_buy] *)
Definition margin_buy (pair : string) (rate amount lending_rate : value)
  : API json :=
  _trading_api [ ("command", VStr "marginBuy");
                 ("currencyPair", VStr (upper pair)); ("rate", rate);
                 ("amount", amount); ("lendingRate", lending_rate) ].

(** [Poloniex.margin_sell] *)
Definition margin_sell (pair : string) (rate amount lending_rate : value)
  : API json :=
  _trading_api [ ("command", VStr "marginSell");
                 ("currencyPair", VStr (upper pair)); ("rate", rate);
                 ("amount", amount); ("lendingRate", lending_rate) ].

(** [Poloniex.get_margin_position] *)
Definition get_margin_position (pair : string) : API json :=
  _trading_api [ ("command", VStr "getMarginPosition");
                 ("currencyPair", VStr (upper pair)) ].

(** [Poloniex.close_margin_position] *)
Definition close_margin_position (pair : string) : API json :=
  _trading_api [ ("command", VStr "closeMarginPosition");
                 ("currencyPair", VStr (upper pair)) ].

(** [Poloniex.create_loan_offer] *)
Definition create_loan_offer (currency : string) (amount lending_rate : value)
           (auto_renew : bool) (duration : value) : API json :=
  _trading_api [ ("command", VStr "createLoanOffer");
                 ("currency", VStr (upper currency)); ("amount", amount);
                 ("duration", duration); ("lendingRate", lending_rate);
                 ("auto_renew", int_of_flag auto_renew) ].

(** [Poloniex.cancel_loan_offer] *)
Definition cancel_loan_offer (order_number : value) : API json :=
  _trading_api [ ("command", VStr "cancelLoanOffer");
                 ("orderNumber", order_number) ].

(** [Poloniex.open_loan_offers] *)
Definition open_loan_offers : API json :=
  _trading_api [("command", VStr "returnOpenLoanOffers")].

(** [Poloniex.active_loans] *)
Definition active_loans : API json :=
  _trading_api [("command", VStr "returnActiveLoans")].

(** [Poloniex.toggle_loan_auto_renew] *)
Definition toggle_loan_auto_renew (order_number : value) : API json :=
  _trading_api [ ("command", VStr "toggleAutoRenew");
                 ("orderNumber", order_number) ].


(** *** Vocabulary for the properties of the client *)


(** What a computation added to the log. *)
Definition performed {A} (m : API A) (w : env) (s : state) : list event :=
  skipn (List.length (log s)) (log (snd (m w s))).

Definition is_http (e : event) : bool :=
  match e with
  | HttpGet _ | HttpPost _ _ _ => true
  | _ => false
  end.

(** Both credentials are set on the client. *)
Definition client_has_credentials (c : client) : bool :=
  truthy (px_key c) && truthy (px_secret c).

(** The credential source holds a record with both fields non-empty. *)
Definition source_has_credentials (src : secret_source) : bool :=
  match src with
  | Loaded (JObj d) =>
      match get d "key", get d "secret" with
      | Some k, Some sec => truthy k && truthy sec
      | _, _ => false
      end
  | _ => false
  end.

(** What [response.json()] gives for the reply to the requests in [done]. *)
Definition decoded (w : env) (done : list event) : result json :=
  match server w done with
  | Failed => Raise RequestException
  | Replied None => Raise ValueError
  | Replied (Some j) => Ok j
  end.

Definition blocks (c : client) : list event :=
  if rate_limit c then [Block] else [].

(** Every HTTP request in [evs] comes right after a call of [block];
    [after_block] tells whether the event before [evs] was one. *)
Fixpoint guarded (after_block : bool) (evs : list event) : bool :=
  match evs with
  | [] => true
  | e :: r =>
      (if is_http e then after_block else true)
      && guarded (match e with Block => true | _ => false end) r
  end.



(** A world for examples: the clock stands at 1500000000.25 s, products are
    exact, there is no credential file, the server answers with an empty
    object. *)
Definition quiet_world : env :=
  Env (fun _ => 6000000001 # 4) exact exact_mono NoFile
      (fun _ => Replied (Some (JObj []))).

(** The same world with a clock that gains a second at every reading. *)
Definition ticking_world : env :=
  Env (fun n => inject_Z (1500000000 + Z.of_nat n)) exact exact_mono NoFile
      (fun _ => Replied (Some (JObj []))).

End Api.

(* ================================================================== *)
(** ** px.py: the ticker protocol *)

Module Px.
Import Py.

(** What the protocol did: log lines, and records handed to the sink
    [ticker_received] (a method that users of the class replace). *)
Inductive event :=
| LogInfo (msg : string)
| TickerReceived (frame : dict json).

(** The class attributes of [TickerProtocol] that decoding reads. The table
    [settings.exchange_ids_to_names] is not part of the sources at hand; it
    is a parameter here, a dict from market ids to names. An empty table is
    a table that is not configured. *)
Record TickerProtocol := Protocol {
  fields : list string;
  exchange_ids_to_names : list (Z * string)
}.

Definition ticker_protocol (names : list (Z * string)) : TickerProtocol :=
  Protocol settings.ws_fields_in_order names.

Definition PX := M TickerProtocol (list event).

Definition emit (e : event) : PX unit := fun _ s => (Ok tt, s ++ [e]).

(** The characters of a string: a byte 10xxxxxx continues the character
    begun before it. The helper returns the continuation bytes that open
    [s] and the characters after them. *)
Definition is_continuation (c : ascii) : bool :=
  let n := N_of_ascii c in ((128 <=? n) && (n <=? 191))%N.

Fixpoint chars_aux (s : string) : string * list string :=
  match s with
  | EmptyString => (EmptyString, [])
  | String c r =>
      let '(cont, cs) := chars_aux r in
      if is_continuation c then (String c cont, cs)
      else (EmptyString, String c cont :: cs)
  end.

Definition chars (s : string) : list string := snd (chars_aux s).

(** [x[i]] *)
Definition getitem (x : json) (i : nat) : result json :=
  match x with
  | JList l =>
      match nth_error l i with Some v => Ok v | None => Raise IndexError end
  | JStr s =>
      match nth_error (chars s) i with
      | Some c => Ok (JStr c)
      | None => Raise IndexError
      end
  | JObj _ => Raise KeyError
  | _ => Raise TypeError
  end.

(** [iter(x)]: a list gives its elements, a string its characters, a dict
    its keys. *)
Definition iter (x : json) : result (list json) :=
  match x with
  | JList l => Ok l
  | JStr s => Ok (map JStr (chars s))
  | JObj o => Ok (map JStr (keys o))
  | _ => Raise TypeError
  end.

(** [{fields[i]: v for i, v in enumerate(data)}], from position [i] on. *)
Fixpoint comprehension (fields : list string) (i : nat) (items : list json)
         (acc : dict json) : result (dict json) :=
  match items with
  | [] => Ok acc
  | v :: r =>
      match nth_error fields i with
      | Some f => comprehension fields (S i) r (set acc f v)
      | None => Raise IndexError
      end
  end.

Definition hashable (x : json) : bool :=
  match x with
  | JList _ | JObj _ => false
  | _ => true
  end.

(** [table.get(x)] on a table keyed by ints. *)
Definition names_get (table : list (Z * string)) (x : json) : result json :=
  if hashable x then
    Ok (match find (fun kv => eq_int x (fst kv)) table with
        | Some (_, name) => JStr name
        | None => JNull
        end)
  else Raise TypeError.

(** [TickerProtocol.ticker_received], the sink. *)
Definition ticker_received (frame : dict json) : PX unit :=
  emit (TickerReceived frame).

(** [TickerProtocol.parse_ticker] *)
Definition parse_ticker (data : json) : PX unit :=
  p <- ask ;;
  items <- lift (iter data) ;;
  frame <- lift (comprehension (fields p) 0 items []) ;;
  frame <- match exchange_ids_to_names p with
           | [] => ret frame
           | table =>
               id <- lift (match get frame "id" with
                           | Some v => Ok v
                           | None => Raise KeyError
                           end) ;;
               name <- lift (names_get table id) ;;
               ret (set frame "name" name)
           end ;;
  ticker_received frame.

Definition is_none (x : json) : bool :=
  match x with JNull => true | _ => false end.

(** [TickerProtocol.frame_received] *)
Definition frame_received (data : json) : PX unit :=
  d0 <- lift (getitem data 0) ;;
  if negb (eq_int d0 1002) then ret tt
  else
    d1 <- lift (getitem data 1) ;;
    if is_none d1 then
      d2 <- lift (getitem data 2) ;;
      parse_ticker d2
    else if eq_int d1 1 then emit (LogInfo "Subscribed to ticker stream.")
    else if eq_int d1 0 then emit (LogInfo "Unsubscribed from ticker stream.")
    else ret tt.

(** The records the sink received. *)
Definition sunk (l : list event) : list (dict json) :=
  flat_map (fun e => match e with TickerReceived f => [f] | _ => [] end) l.


(** *** Vocabulary for the properties of the protocol *)

(** The frame of the specification's decoding example and its record. *)
Definition ticker_frame : json :=
  JList [ JInt 1002; JNull;
          JList [ JInt 7; JStr "0.05"; JStr "0.051"; JStr "0.049"; JStr "0.01";
                  JStr "120.5"; JStr "2400.3"; JInt 0; JStr "0.06"; JStr "0.045" ] ].

Definition ticker_record : dict json :=
  [ ("id", JInt 7); ("last", JStr "0.05"); ("lowestAsk", JStr "0.051");
    ("highestBid", JStr "0.049"); ("percentChange", JStr "0.01");
    ("baseVolume", JStr "120.5"); ("quoteVolume", JStr "2400.3");
    ("isFrozen", JInt 0); ("high24hr", JStr "0.06"); ("low24hr", JStr "0.045") ].

(** The name a table gives to market [id]: null when it has none. *)
Definition name_of (names : list (Z * string)) (id : Z) : json :=
  match find (fun kv => id =? fst kv) names with
  | Some (_, name) => JStr name
  | None => JNull
  end.

(** "Element 0 is 1002 and element 1 is null." *)
Definition is_ticker_data (data : json) : bool :=
  match getitem data 0, getitem data 1 with
  | Ok d0, Ok d1 => eq_int d0 1002 && is_none d1
  | _, _ => false
  end.

(** A payload the decoder gets through: at most ten values and, when a table
    of names is configured, a first value that can be looked up in it. *)
Definition decodable (names : list (Z * string)) (payload : list json) : bool :=
  (List.length payload <=? 10)%nat
  && match names with
     | [] => true
     | _ => match payload with id :: _ => hashable id | [] => false end
     end.

End Px.

(* ================================================================== *)
(** ** Vocabulary for the properties of signatures and query strings *)

Module Text.
Import Py.

(** Every character of [s] passes [p]. *)
Definition all_chars (p : ascii -> bool) (s : string) : bool :=
  forallb p (list_ascii_of_string s).

Definition is_lower_hex (c : ascii) : bool := in_string c "0123456789abcdef".

(** The characters [quote_plus] can produce. *)
Definition is_quoted_char (c : ascii) : bool :=
  always_safe c || in_string c "%+".

(** The characters [urlencode] can produce. *)
Definition is_query_char (c : ascii) : bool :=
  is_quoted_char c || in_string c "=&".

(** Being another character than [c]. *)
Definition is_not (c d : ascii) : bool := negb (Ascii.eqb d c).

(** The names of a mapping with the texts of its values. *)
Definition texts (d : dict value) : list (string * string) :=
  map (fun kv => (fst kv, str (snd kv))) d.

(** What [quote_plus] makes of one character. *)
Definition quote_plus_char (c : ascii) : string :=
  if always_safe c then String c EmptyString
  else if Ascii.eqb c " " then "+"
  else
    let n := Z.of_N (N_of_ascii c) in
    String "%" (String (HEXDIGIT (n / 16)) (String (HEXDIGIT (n mod 16)) EmptyString)).

Fixpoint quote_plus_chars (s : string) : string :=
  match s with
  | EmptyString => EmptyString
  | String c r => (quote_plus_char c ++ quote_plus_chars r)%string
  end.

(** The value of a hexadecimal digit. *)
Definition unhex (c : ascii) : Z :=
  let n := Z.of_N (N_of_ascii c) in
  if n <? 58 then n - 48 else n - 55.

(** Reading a quoted text back. *)
Fixpoint read_quoted (s : string) : string :=
  match s with
  | EmptyString => EmptyString
  | String c r =>
      if Ascii.eqb c "+" then String " " (read_quoted r)
      else if Ascii.eqb c "%" then
        match r with
        | String h (String l r') =>
            String (ascii_of_N (Z.to_N (16 * unhex h + unhex l))) (read_quoted r')
        | _ => String c (read_quoted r)
        end
      else String c (read_quoted r)
  end.

End Text.

(* ================================================================== *)
(** ** The standards, in their own words

    SHA-512 after FIPS 180-4, HMAC after RFC 2104, the query string of a
    form and the usual renderings of bytes, written on their own: nothing
    here uses the models above, which are compared with them below. *)

Module FIPS180.

(** Words are 64 bits wide. *)
Definition mask : Z := Z.ones 64.

(** Addition modulo 2^64. *)
Definition plus (x y : Z) : Z := Z.land (x + y) mask.

Definition ROTR (n x : Z) : Z :=
  Z.lor (Z.shiftr x n) (Z.land (Z.shiftl x (64 - n)) mask).
Definition SHR (n x : Z) : Z := x / 2 ^ n.
Definition complement (x : Z) : Z := mask - x.

Definition Ch (x y z : Z) : Z :=
  Z.lxor (Z.land x y) (Z.land (complement x) z).
(** The majority of three bits, as a disjunction. *)
Definition Maj (x y z : Z) : Z :=
  Z.lor (Z.lor (Z.land x y) (Z.land x z)) (Z.land y z).
Definition Sigma0 (x : Z) : Z := Z.lxor (Z.lxor (ROTR 28 x) (ROTR 34 x)) (ROTR 39 x).
Definition Sigma1 (x : Z) : Z := Z.lxor (Z.lxor (ROTR 14 x) (ROTR 18 x)) (ROTR 41 x).
Definition sigma0 (x : Z) : Z := Z.lxor (Z.lxor (ROTR 1 x) (ROTR 8 x)) (SHR 7 x).
Definition sigma1 (x : Z) : Z := Z.lxor (Z.lxor (ROTR 19 x) (ROTR 61 x)) (SHR 6 x).

(** The constants: the first 64 bits of the fractional parts of the cube
    roots of the first eighty primes, and of the square roots of the first
    eight. *)
Definition is_prime (n : Z) : bool :=
  (1 <? n)
  && forallb (fun d => negb (n mod d =? 0))
             (map Z.of_nat (seq 2 (Z.to_nat n - 2))).

Definition primes (count : nat) : list Z :=
  firstn count (filter is_prime (map Z.of_nat (seq 2 410))).

(** The largest [r] below [2 ^ bits] with [r ^ k <= n], found bit by bit. *)
Fixpoint root (k : Z) (bits : nat) (n r : Z) : Z :=
  match bits with
  | O => r
  | S b =>
      let c := r + 2 ^ Z.of_nat b in
      root k b n (if c ^ k <=? n then c else r)
  end.

Definition fraction (k p : Z) : Z := root k 72 (p * 2 ^ (64 * k)) 0 mod 2 ^ 64.

Definition K : list Z := Eval vm_compute in map (fraction 3) (primes 80).
Definition H0 : list Z := Eval vm_compute in map (fraction 2) (primes 8).

(** Numbers in base 256, most significant digit first. *)
Fixpoint digits (n : nat) (x : Z) : list Z :=
  match n with
  | O => []
  | S k => (x / 256 ^ Z.of_nat k) mod 256 :: digits k x
  end.

Fixpoint number (bs : list Z) : Z :=
  match bs with
  | [] => 0
  | b :: r => b * 256 ^ Z.of_nat (List.length r) + number r
  end.

(** Padding: the bit 1, then [k] zero bits, [k] the least number that
    brings the length to 896 modulo 1024, then the length in bits on 128
    bits. The bit 1 and seven of the zeros make the byte 0x80. *)
Definition padded (m : list Z) : list Z :=
  let l := 8 * Z.of_nat (List.length m) in
  let k := (896 - (l + 1)) mod 1024 in
  m ++ [0x80] ++ repeat 0 (Z.to_nat (k / 8)) ++ digits 16 l.

(** The [i]-th piece of [size] elements. *)
Definition slice {A} (size i : nat) (l : list A) : list A :=
  firstn size (skipn (size * i) l).

Definition blocks (p : list Z) : list (list Z) :=
  map (fun i => slice 128 i p) (seq 0 (List.length p / 128)).

Definition words (block : list Z) : list Z :=
  map (fun j => number (slice 8 j block)) (seq 0 16).

(** The message schedule: W_t for t from 16 on is
    sigma1(W_(t-2)) + W_(t-7) + sigma0(W_(t-15)) + W_(t-16). *)
Definition next_word (w : list Z) : Z :=
  let t := List.length w in
  Z.land (sigma1 (nth (t - 2) w 0) + nth (t - 7) w 0
          + sigma0 (nth (t - 15) w 0) + nth (t - 16) w 0) mask.

Fixpoint extend (n : nat) (w : list Z) : list Z :=
  match n with
  | O => w
  | S k => extend k (w ++ [next_word w])
  end.

Definition schedule (block : list Z) : list Z := extend 64 (words block).

(** Round [t] on the working variables a, ..., h. *)
Definition step (W : list Z) (s : list Z) (t : nat) : list Z :=
  match s with
  | [a; b; c; d; e; f; g; h] =>
      let T1 := Z.land (h + Sigma1 e + Ch e f g + nth t K 0 + nth t W 0) mask in
      let T2 := Z.land (Sigma0 a + Maj a b c) mask in
      [plus T1 T2; a; b; c; plus d T1; e; f; g]
  | _ => s
  end.

Definition compress (H : list Z) (block : list Z) : list Z :=
  map (fun p => plus (fst p) (snd p))
      (combine H (fold_left (step (schedule block)) (seq 0 80) H)).

Definition sha512 (m : list Z) : list Z :=
  flat_map (digits 8) (fold_left compress (blocks (padded m)) H0).

End FIPS180.

Module RFC2104.

(** The block size of the hash, in bytes. *)
Definition B : nat := 128.

Definition xor (a b : list Z) : list Z :=
  map (fun p => Z.lxor (fst p) (snd p)) (combine a b).

Definition ipad : list Z := repeat 0x36 B.
Definition opad : list Z := repeat 0x5C B.

(** A key longer than a block is hashed; zeros are appended up to a block. *)
Definition block_key (H : list Z -> list Z) (key : list Z) : list Z :=
  let k := if (B <? List.length key)%nat then H key else key in
  k ++ repeat 0 (B - List.length k).

(** H(K xor opad, H(K xor ipad, text)) *)
Definition hmac (H : list Z -> list Z) (key text : list Z) : list Z :=
  H (xor (block_key H key) opad ++ H (xor (block_key H key) ipad ++ text)).

End RFC2104.

Module Standard.

(** The bytes of a text in UTF-8. *)
Definition utf8 (s : string) : list Z :=
  map (fun b => Z.of_N (Byte.to_N b)) (list_byte_of_string s).

Definition pick (alphabet : string) (d : Z) : ascii :=
  match String.get (Z.to_nat d) alphabet with
  | Some c => c
  | None => " "%char
  end.

(** Two lowercase hexadecimal digits a byte. *)
Definition hexadecimal (bs : list Z) : string :=
  String.concat ""
    (map (fun b => String (pick "0123456789abcdef" (b / 16))
                          (String (pick "0123456789abcdef" (b mod 16)) ""))
         bs).

Definition occurs (c : ascii) (s : string) : bool :=
  match String.index 0 (String c "") s with
  | Some _ => true
  | None => false
  end.

(** A character of a form field: letters, digits and _ . - ~ stand for
    themselves, the space becomes +, any other byte % and two uppercase
    hexadecimal digits. *)
Definition escape (c : ascii) : string :=
  if occurs c "ABCDEFGHIJKLMNOPQRSTUVWXYZabcdefghijklmnopqrstuvwxyz0123456789_.-~"
  then String c ""
  else if Ascii.eqb c " " then "+"
  else
    let n := Z.of_N (N_of_ascii c) in
    String "%" (String (pick "0123456789ABCDEF" (n / 16))
                       (String (pick "0123456789ABCDEF" (n mod 16)) "")).

Definition escaped (s : string) : string :=
  String.concat "" (map escape (list_ascii_of_string s)).

(** The query string of a mapping: name=value pairs, in order, joined
    by &, the values in their text form. *)
Definition query_string (d : Py.dict Py.value) : string :=
  String.concat "&"
    (map (fun kv => (escaped (fst kv) ++ "=" ++ escaped (Py.str (snd kv)))%string)
         d).

(** The hexadecimal HMAC-SHA512 of the query string of [data] under
    [secret]. *)
Definition signature (secret : string) (data : Py.dict Py.value) : string :=
  hexadecimal (RFC2104.hmac FIPS180.sha512 (utf8 secret)
                            (utf8 (query_string data))).

End Standard.

(* ================================================================== *)
(** * Properties *)

(** ** Reference values *)

Example sha512_abc :
  hex (SHA512.digest (encode "abc")) =
  "ddaf35a193617abacc417349ae20413112e6fa4e89a97ea20a9eeee64b55d39a2192992a274fc1a836ba3c23a3feebbd454d4423643ce80e2a9ac94fa54ca49f".
Proof. vm_compute. reflexivity. Qed.

Example sha512_empty :
  hex (SHA512.digest []) =
  "cf83e1357eefb8bdf1542850d66d8007d620e4050b5715dc83f4a921d36ce9ce47d0d13c5d85f2b0ff8318d2877eec2f63b931bd47417a81a538327af927da3e".
Proof. vm_compute. reflexivity. Qed.

Example hmac_rfc4231_case2 :
  HMAC.hexdigest (HMAC.new (encode "Jefe") (encode "what do ya want for nothing?")) =
  "164b7a7bfcf819e2e395fbe73b56e0a387bd64222e831fd610270cd7ea2505549758bf75c05a994a6d034f65f8f0e6fdcaeab1a34d4a6b4b636e070a38bce737".
Proof. vm_compute. reflexivity. Qed.

(** RFC 4231, case 6: a key longer than a block is hashed first. *)
Example hmac_rfc4231_case6 :
  HMAC.hexdigest
    (HMAC.new (repeat 0xaa 131)
       (encode "Test Using Larger Than Block-Size Key - Hash Key First")) =
  "80b24263c7c1a3ebb71493c1dd7be8b49b46d1f41b4aeec1121b013783f8f3526b56d037e05f2598bd0fd2215d6a1e5295e64f73f63f0aec8b915a985d786598".
Proof. vm_compute. reflexivity. Qed.

Example urlencode_example :
  Py.urlencode [("a b", Py.VStr "x/y~z"); ("k", Py.VBool true);
                ("n", Py.VNone); ("i", Py.VInt (-12)); ("u", Py.VStr "é")]
  = "a+b=x%2Fy~z&k=True&n=None&i=-12&u=%C3%A9".
Proof. reflexivity. Qed.

(** ** Signing *)

Import Py.

Lemma hmac_new_is_rfc2104 (key msg : bytes) :
  HMAC.digest (HMAC.new key msg) = HMAC.hmac_sha512 key msg.
Proof.
  unfold HMAC.digest, HMAC.new, HMAC.hmac_sha512, HMAC.pad_key.
  unfold HMAC.h_digest, HMAC.h_update, HMAC.new_hasher.
  cbn [HMAC.inner HMAC.outer HMAC.fed app].
  reflexivity.
Qed.

Example sign_reference :
  Api.sign "secret" [("command", VStr "returnBalances"); ("nonce", VInt 1500000000000)]
  = "35f2de783d4232a31a763b0fdd09422c659550703f82ac40b325745c914cf87e57fa887964668b0e54b416bdf1b8de42df94a0ca57a3fa1efbe35865c14431e2".
Proof. vm_compute. reflexivity. Qed.

(** ** The ticker stream *)

Module PxFacts.
Import Px.

(** The protocol only ever appends to its log. *)
Lemma frame_received_appends (data : json) (p : TickerProtocol) (s : list event) :
  frame_received data p s
  = (fst (frame_received data p []), s ++ snd (frame_received data p [])).
Proof.
  unfold frame_received, parse_ticker, ticker_received, emit, bind, lift, ask, ret.
  destruct (getitem data 0) as [d0|e]; [|now rewrite app_nil_r].
  destruct (negb (eq_int d0 1002)); [now rewrite app_nil_r|].
  destruct (getitem data 1) as [d1|e]; [|now rewrite app_nil_r].
  destruct (is_none d1).
  - destruct (getitem data 2) as [d2|e]; [|now rewrite app_nil_r].
    destruct (iter d2) as [items|e]; [|now rewrite app_nil_r].
    destruct (comprehension (fields p) 0 items []) as [fr|e];
      [|now rewrite app_nil_r].
    destruct (exchange_ids_to_names p) as [|kv names]; [reflexivity|].
    destruct (get fr "id") as [v|]; [|now rewrite app_nil_r].
    destruct (names_get (kv :: names) v); [reflexivity|now rewrite app_nil_r].
  - destruct (eq_int d1 1); [reflexivity|].
    destruct (eq_int d1 0); [reflexivity|now rewrite app_nil_r].
Qed.

(** C5. The frame of the example decodes to the record of the example; with a
    table of names configured the record also gets a [name], the one the
    table has for id 7, or null when the table has none. *)
Theorem ticker_frame_decodes :
  forall names : list (Z * string),
    frame_received ticker_frame (ticker_protocol names) []
    = (Ok tt,
       [TickerReceived
          (ticker_record ++ match names with
                            | [] => []
                            | _ => [("name", name_of names 7)]
                            end)]).
Proof.
  intros [|[k n] names]; [reflexivity|].
  unfold frame_received, parse_ticker, ticker_received, emit, bind, lift, ask, ret.
  cbn -[find Z.eqb].
  unfold names_get, name_of. cbn -[find Z.eqb].
  reflexivity.
Qed.

(** A frame on channel 1002 whose second element is null and that has no
    third element stops the dispatcher on an IndexError; the sink gets
    nothing. *)
Lemma frame_without_payload :
  frame_received (JList [JInt 1002; JNull]) (ticker_protocol []) []
  = (Raise IndexError, []).
Proof. reflexivity. Qed.

(** C6, as stated, fails: it is not so that the sink is invoked exactly when
    element 0 is 1002 and element 1 is null. *)
Lemma sink_iff_ticker_data_fails :
  ~ (forall (data : json) (p : TickerProtocol),
        sunk (snd (frame_received data p [])) <> [] <->
        is_ticker_data data = true).
Proof.
  intros H.
  destruct (H (JList [JInt 1002; JNull]) (ticker_protocol [])) as [_ H2].
  apply H2; reflexivity.
Qed.

Lemma sink_only_on_ticker_data (data : json) (p : TickerProtocol) :
  sunk (snd (frame_received data p [])) <> [] -> is_ticker_data data = true.
Proof.
  unfold is_ticker_data, frame_received, bind, lift, ret.
  destruct (getitem data 0) as [d0|e]; [|intros H; now elim H].
  destruct (eq_int d0 1002); cbn [negb andb]; [|intros H; now elim H].
  destruct (getitem data 1) as [d1|e]; [|intros H; now elim H].
  destruct (is_none d1); [reflexivity|].
  unfold emit.
  destruct (eq_int d1 1); [intros H; now elim H|].
  destruct (eq_int d1 0); intros H; now elim H.
Qed.

Lemma decodable_payload_sinks (names : list (Z * string)) (payload : list json) :
  decodable names payload = true ->
  exists record, parse_ticker (JList payload) (ticker_protocol names) []
                 = (Ok tt, [TickerReceived record]).
Proof.
  unfold decodable. intros H. apply andb_prop in H. destruct H as [Hlen Hid].
  apply Nat.leb_le in Hlen.
  unfold parse_ticker, ticker_received, emit, bind, lift, ask, ret.
  cbn [iter ticker_protocol fields exchange_ids_to_names].
  destruct names as [|kv names].
  - do 11 (destruct payload as [|? payload]; [eexists; reflexivity|]).
    cbn in Hlen. lia.
  - destruct payload as [|id payload]; [discriminate|].
    assert (Hget : forall fr, comprehension settings.ws_fields_in_order 0 (id :: payload) [] = Ok fr ->
                              get fr "id" = Some id).
    { do 10 (destruct payload as [|? payload];
             [intros fr E; cbn in E; injection E as <-; reflexivity|]).
      cbn in Hlen. lia. }
    assert (Hok : exists fr, comprehension settings.ws_fields_in_order 0 (id :: payload) [] = Ok fr).
    { do 10 (destruct payload as [|? payload]; [eexists; reflexivity|]).
      cbn in Hlen. lia. }
    destruct Hok as [fr Hfr]. rewrite Hfr, (Hget fr Hfr).
    unfold names_get. rewrite Hid. eexists; reflexivity.
Qed.

(** C6, amended. The sink is invoked only when element 0 is 1002 and
    element 1 is null, and it is invoked then, once, when element 2 is a list the
    decoder gets through; the frame [1002, 1] logs the subscription and
    leaves the sink alone; a list whose first element is not 1002 does
    nothing and raises nothing. *)
Theorem dispatch_by_channel :
  (forall (data : json) (p : TickerProtocol),
      sunk (snd (frame_received data p [])) <> [] -> is_ticker_data data = true)
  /\ (forall (names : list (Z * string)) (d0 : json) (payload rest : list json),
         eq_int d0 1002 = true -> decodable names payload = true ->
         exists record,
           frame_received (JList (d0 :: JNull :: JList payload :: rest))
                          (ticker_protocol names) []
           = (Ok tt, [TickerReceived record]))
  /\ (forall p : TickerProtocol,
         frame_received (JList [JInt 1002; JInt 1]) p []
         = (Ok tt, [LogInfo "Subscribed to ticker stream."]))
  /\ (forall (p : TickerProtocol) (d0 : json) (rest : list json),
         eq_int d0 1002 = false ->
         frame_received (JList (d0 :: rest)) p [] = (Ok tt, [])).
Proof.
  split; [exact sink_only_on_ticker_data|].
  split; [|split].
  - intros names d0 payload rest H0 Hp.
    destruct (decodable_payload_sinks names payload Hp) as [record Hr].
    exists record.
    unfold frame_received, bind, lift. cbn [getitem nth_error].
    rewrite H0. cbn [negb is_none]. exact Hr.
  - reflexivity.
  - intros p d0 rest H0.
    unfold frame_received, bind, lift, ret. cbn [getitem nth_error].
    now rewrite H0.
Qed.

Lemma dispatch_by_channel_witness :
  is_ticker_data ticker_frame = true
  /\ (exists record,
         frame_received ticker_frame (ticker_protocol [(7, "BTC_BCN")]) []
         = (Ok tt, [TickerReceived record]))
  /\ frame_received (JList [JInt 9999; JStr "x"]) (ticker_protocol []) []
     = (Ok tt, []).
Proof.
  destruct dispatch_by_channel as [H1 [H2 [_ H4]]].
  split; [|split].
  - apply (H1 ticker_frame (ticker_protocol [])). discriminate.
  - apply (H2 [(7, "BTC_BCN")] (JInt 1002)); reflexivity.
  - apply (H4 (ticker_protocol []) (JInt 9999) [JStr "x"]). reflexivity.
Defined.

End PxFacts.

(** ** The REST client *)

Module ApiFacts.
Import Api.
Lemma skipn_length_app {A} (l l' : list A) : skipn (List.length l) (l ++ l') = l'.
Proof. induction l; [reflexivity|exact IHl]. Qed.

Lemma http_run (request : event) (w : env) (s : state) :
  http request w s
  = (decoded w (log s ++ [request]),
     State (self s) (reads s) (log s ++ [request])).
Proof.
  unfold http, decoded, bind, emit, ask, get_state, raise, ret. cbn [log self reads].
  destruct (server w (log s ++ [request])) as [|[j|]]; reflexivity.
Qed.

Lemma rate_limit_block_run (w : env) (s : state) :
  _rate_limit_block w s
  = (Ok tt, State (self s) (reads s) (log s ++ blocks (self s))).
Proof.
  unfold _rate_limit_block, blocks, bind, get_state, emit, ret.
  destruct (rate_limit (self s)); [reflexivity|].
  rewrite app_nil_r. now destruct s.
Qed.

(** The credential check takes no clock reading, leaves the rate limit flag
    alone, and adds at most the opening of the credential file to the log. *)
Lemma check_secrets_effect (w : env) (s : state) :
  let s1 := snd (_check_secrets w s) in
  reads s1 = reads s
  /\ rate_limit (self s1) = rate_limit (self s)
  /\ log s1 = log s ++ (if client_has_credentials (self s) then [] else [OpenSecrets]).
Proof.
  unfold _check_secrets, client_has_credentials, obj_get, bind, get_state,
    emit, ask, put_state, raise, ret.
  destruct (truthy (px_key (self s)) && truthy (px_secret (self s))).
  - cbn. now rewrite app_nil_r.
  - cbn [snd fst self reads log].
    destruct (secret_file w) as [| |j]; [now cbn|now cbn|].
    destruct j; try (now cbn).
    destruct (get o "key") as [k|]; [destruct (truthy k)|];
      (destruct (get o "secret") as [sec|]; [destruct (truthy sec)|]);
      now cbn.
Qed.

Lemma check_secrets_present (w : env) (s : state) :
  client_has_credentials (self s) = true -> _check_secrets w s = (Ok tt, s).
Proof.
  unfold _check_secrets, client_has_credentials, bind, get_state, ret.
  now intros ->.
Qed.

(** Without credentials on either side the check raises, having opened the
    credential file and nothing else. *)
Lemma check_secrets_missing (w : env) (s : state) :
  client_has_credentials (self s) = false ->
  source_has_credentials (secret_file w) = false ->
  exists e,
    _check_secrets w s
    = (Raise e, State (self s) (reads s) (log s ++ [OpenSecrets]))
    /\ (forall d, secret_file w = Loaded (JObj d) -> exists msg, e = SecretKeyError msg).
Proof.
  unfold _check_secrets, client_has_credentials, source_has_credentials,
    obj_get, bind, get_state, emit, ask, put_state, raise, ret.
  intros -> Hsrc. cbn [self reads log].
  destruct (secret_file w) as [| |j].
  - eexists; split; [reflexivity|discriminate].
  - eexists; split; [reflexivity|discriminate].
  - destruct j; try (eexists; split; [reflexivity|discriminate]).
    destruct (get o "key") as [k|]; cbn [truthy negb].
    + destruct (truthy k); cbn [negb].
      * destruct (get o "secret") as [sec|]; cbn [truthy negb].
        -- cbn [andb] in Hsrc. rewrite Hsrc. cbn [negb].
           eexists; split; [reflexivity|intros; eexists; reflexivity].
        -- eexists; split; [reflexivity|intros; eexists; reflexivity].
      * eexists; split; [reflexivity|intros; eexists; reflexivity].
    + eexists; split; [reflexivity|intros; eexists; reflexivity].
Qed.

(** The trading executor, outcome by outcome of its first two steps. *)
Lemma trading_api_run (kwargs : dict value) (w : env) (s : state) :
  _trading_api kwargs w s
  = let '(r1, s1) := _check_secrets w s in
    match r1 with
    | Raise e => (Raise e, s1)
    | Ok _ =>
        let data := set kwargs "nonce" (VInt (nonce_at w (clock w (reads s1)))) in
        match px_secret (self s1) with
        | JStr secret =>
            let headers := [("Sign", JStr (sign secret data));
                            ("Key", px_key (self s1))] in
            let done := ((log s1 ++ [ReadClock]) ++ blocks (self s1))
                          ++ [HttpPost settings.trading_url headers data] in
            (decoded w done, State (self s1) (S (reads s1)) done)
        | _ =>
            (Raise AttributeError,
             State (self s1) (S (reads s1)) (log s1 ++ [ReadClock]))
        end
    end.
Proof.
  unfold _trading_api. unfold bind at 1.
  destruct (_check_secrets w s) as [[[]|e] s1]; [|reflexivity].
  unfold bind at 1. unfold ask at 1. unfold bind at 1. unfold time at 1.
  unfold bind at 1. unfold get_state at 1. cbn [self reads log].
  unfold bind at 1.
  destruct (px_secret (self s1)); try reflexivity.
  unfold sign_with, ret. unfold bind.
  rewrite rate_limit_block_run. cbn [self reads log].
  now rewrite http_run.
Qed.

Lemma performed_app {A} (m : API A) (w : env) (s : state) (evs : list event) :
  log (snd (m w s)) = log s ++ evs -> performed m w s = evs.
Proof. unfold performed. intros ->. apply skipn_length_app. Qed.

(** The trading executor on a client that holds its credentials, the secret
    being text. *)
Lemma trading_api_with_credentials (kwargs : dict value) (w : env) (s : state)
      (secret : string) :
  client_has_credentials (self s) = true ->
  px_secret (self s) = JStr secret ->
  let data := set kwargs "nonce" (VInt (nonce_at w (clock w (reads s)))) in
  let headers := [("Sign", JStr (sign secret data)); ("Key", px_key (self s))] in
  let done := log s ++ [ReadClock] ++ blocks (self s)
                    ++ [HttpPost settings.trading_url headers data] in
  _trading_api kwargs w s = (decoded w done, State (self s) (S (reads s)) done).
Proof.
  intros Hc Hs data headers done.
  rewrite trading_api_run, (check_secrets_present w s Hc), Hs.
  subst done headers data. cbv zeta. now rewrite <- !app_assoc.
Qed.

(** What the trading executor adds to the log when the credential check
    passes on the client's own credentials and the secret is text. *)
Lemma trading_api_performed (kwargs : dict value) (w : env) (s : state)
      (secret : string) :
  client_has_credentials (self s) = true ->
  px_secret (self s) = JStr secret ->
  let data := set kwargs "nonce" (VInt (nonce_at w (clock w (reads s)))) in
  let headers := [("Sign", JStr (sign secret data)); ("Key", px_key (self s))] in
  performed (_trading_api kwargs) w s
  = [ReadClock] ++ blocks (self s)
      ++ [HttpPost settings.trading_url headers data].
Proof.
  intros Hc Hs data headers. apply performed_app.
  now rewrite (trading_api_with_credentials kwargs w s secret Hc Hs).
Qed.

(** Whatever the trading executor posts is the mapping it was given with the
    nonce of its one clock reading set. *)
Lemma trading_api_posts (kwargs : dict value) (w : env) (s : state)
      (url : string) (headers : dict json) (data : dict value) :
  In (HttpPost url headers data) (performed (_trading_api kwargs) w s) ->
  data = set kwargs "nonce" (VInt (nonce_at w (clock w (reads s)))).
Proof.
  destruct (check_secrets_effect w s) as [Hr [_ Hl]].
  set (l := if client_has_credentials (self s) then [] else [OpenSecrets]) in Hl.
  assert (Hno : ~ In (HttpPost url headers data) l).
  { subst l. destruct (client_has_credentials (self s)); cbn; [tauto|].
    intros [H|[]]; discriminate. }
  unfold performed. rewrite trading_api_run.
  destruct (_check_secrets w s) as [[[]|e] s1]; cbn [snd] in *.
  - rewrite Hr.
    destruct (px_secret (self s1)); cbn [snd log]; rewrite Hl, <- ?app_assoc,
      skipn_length_app; intros H; repeat (apply in_app_or in H; destruct H as [H|H]);
      try (now elim Hno);
      try (destruct H as [H|[]]; discriminate).
    + unfold blocks in H. destruct (rate_limit (self s1)); [|now elim H].
      destruct H as [H|[]]; discriminate.
    + destruct H as [H|[]]. now injection H as _ _ <-.
  - rewrite Hl, skipn_length_app. intros H. now elim Hno.
Qed.

Lemma get_set_other {V} (d : dict V) (k k' : string) (v : V) :
  k <> k' -> get (set d k v) k' = get d k'.
Proof.
  intros Hk. induction d as [|[k0 v0] d IH]; cbn.
  - destruct (String.eqb_spec k k'); [contradiction|reflexivity].
  - destruct (String.eqb_spec k0 k) as [->|Hne]; cbn.
    + destruct (String.eqb_spec k k'); [contradiction|reflexivity].
    + now rewrite IH.
Qed.

Lemma get_set_same {V} (d : dict V) (k : string) (v : V) :
  get (set d k v) k = Some v.
Proof.
  induction d as [|[k0 v0] d IH]; cbn.
  - now rewrite String.eqb_refl.
  - destruct (String.eqb_spec k0 k) as [->|Hne]; cbn.
    + now rewrite String.eqb_refl.
    + destruct (String.eqb_spec k0 k); [contradiction|exact IH].
Qed.

Lemma not_a_candle_period (period : Z) :
  ~ In period candle_periods -> existsb (Z.eqb period) candle_periods = false.
Proof.
  intros H. destruct (existsb (Z.eqb period) candle_periods) eqn:E; [|reflexivity].
  apply existsb_exists in E. destruct E as [x [Hin Hx]].
  apply Z.eqb_eq in Hx. now subst.
Qed.

Lemma a_candle_period (period : Z) :
  In period candle_periods -> existsb (Z.eqb period) candle_periods = true.
Proof.
  intros H. apply existsb_exists. exists period. split; [exact H|apply Z.eqb_refl].
Qed.

(** [int] of a float does not decrease when the float does not. *)
Lemma int_of_float_mono (x y : Q) :
  (x <= y)%Q -> int_of_float x <= int_of_float y.
Proof.
  unfold Qle, int_of_float. intros H.
  rewrite <- (Z.quot_mul_cancel_r (Qnum x) (Zpos (Qden x)) (Zpos (Qden y)))
    by discriminate.
  rewrite <- (Z.quot_mul_cancel_r (Qnum y) (Zpos (Qden y)) (Zpos (Qden x)))
    by discriminate.
  rewrite (Z.mul_comm (Zpos (Qden y)) (Zpos (Qden x))).
  apply Z.quot_le_mono; [reflexivity|exact H].
Qed.

Lemma nonce_at_mono (w : env) (t t' : Q) :
  (t <= t')%Q -> nonce_at w t <= nonce_at w t'.
Proof.
  intros Ht. unfold nonce_at, float_mul.
  apply int_of_float_mono, float_round_mono.
  apply Qmult_le_compat_r; [exact Ht|discriminate].
Qed.

(** *** The trading executor *)










(** C8. Of two trading calls made one after the other, the second posts a
    nonce at least as large as the first, provided the clock reading of the
    second is not below that of the first. *)
Theorem nonce_non_decreasing :
  forall (w : env) (s : state) (ka kb : dict value)
         (ua ub : string) (ha hb : dict json) (da db : dict value),
    (clock w (reads s) <= clock w (reads (snd (_trading_api ka w s))))%Q ->
    In (HttpPost ua ha da) (performed (_trading_api ka) w s) ->
    In (HttpPost ub hb db)
       (performed (_trading_api kb) w (snd (_trading_api ka w s))) ->
    exists na nb : Z,
      get da "nonce" = Some (VInt na) /\ get db "nonce" = Some (VInt nb)
      /\ na <= nb.
Proof.
  intros w s ka kb ua ub ha hb da db Hclock Ha Hb.
  apply trading_api_posts in Ha. apply trading_api_posts in Hb.
  subst da db. do 2 eexists.
  rewrite !get_set_same. repeat split.
  now apply nonce_at_mono.
Qed.

Lemma nonce_non_decreasing_witness :
  exists na nb : Z,
    get [("command", VStr "returnBalances"); ("nonce", VInt 1500000000000)] "nonce"
    = Some (VInt na)
    /\ get [("command", VStr "returnFeeInfo"); ("nonce", VInt 1500000001000)] "nonce"
       = Some (VInt nb)
    /\ na <= nb.
Proof.
  pose (c := Client (JStr "key") (JStr "secret") true).
  pose (ka := [("command", VStr "returnBalances")]).
  pose (kb := [("command", VStr "returnFeeInfo")]).
  pose proof (trading_api_with_credentials ka ticking_world (fresh c) "secret"
                eq_refl eq_refl) as Ea.
  cbv zeta in Ea.
  eapply (nonce_non_decreasing ticking_world (fresh c) ka kb).
  - rewrite Ea. cbn. unfold Qle. cbn. lia.
  - rewrite (trading_api_performed ka ticking_world (fresh c) "secret"
               eq_refl eq_refl).
    right. right. left. reflexivity.
  - rewrite Ea. cbn [snd].
    match goal with
    | |- In _ (performed _ _ ?sa) =>
        rewrite (trading_api_performed kb ticking_world sa "secret"
                   eq_refl eq_refl)
    end.
    right. right. left. reflexivity.
Defined.

(** *** Candlestick data *)

(** C7. A period outside 300, 900, 1800, 7200, 14400, 86400 makes
    [chart_data] raise a [PoloniexError] at once: the state is as before, no
    clock was read and nothing was sent. *)
Theorem chart_data_rejects_period :
  forall (pair : string) (start end_ period : Z) (w : env) (s : state),
    ~ In period candle_periods ->
    chart_data pair start end_ period w s
    = (Raise (PoloniexError (str_of_int period ++ " invalid candle period")), s)
    /\ performed (chart_data pair start end_ period) w s = [].
Proof.
  intros pair start end_ period w s H.
  assert (E : chart_data pair start end_ period w s
              = (Raise (PoloniexError
                          (str_of_int period ++ " invalid candle period")), s)).
  { unfold chart_data. now rewrite (not_a_candle_period period H). }
  split; [exact E|].
  apply performed_app. rewrite E. cbn [snd]. now rewrite app_nil_r.
Qed.

Lemma chart_data_rejects_period_witness :
  let s := fresh (Client JNull JNull true) in
  chart_data "btc_eth" 0 0 1000 quiet_world s
  = (Raise (PoloniexError "1000 invalid candle period"), s)
  /\ performed (chart_data "btc_eth" 0 0 1000) quiet_world s = [].
Proof.
  apply (chart_data_rejects_period "btc_eth" 0 0 1000 quiet_world
           (fresh (Client JNull JNull true))).
  cbn. intros H. repeat (destruct H as [H|H]; [discriminate|]). exact H.
Defined.

Lemma public_api_run (kwargs : dict value) (w : env) (s : state) :
  _public_api kwargs w s
  = let done := log s ++ blocks (self s)
                      ++ [HttpGet (settings.public_url ++ urlencode kwargs)] in
    (decoded w done, State (self s) (reads s) done).
Proof.
  unfold _public_api, bind. rewrite rate_limit_block_run, http_run.
  cbn [self reads log]. now rewrite <- !app_assoc.
Qed.

(** C9. With a valid period, [chart_data] sends to the public API the four
    parameters command, currencyPair, start and end and no other; the
    period is not among them, and which valid period was given makes no
    difference to what the call does. *)
Theorem chart_data_omits_period :
  forall (pair : string) (start end_ period : Z) (w : env) (s : state),
    In period candle_periods ->
    let start' :=
      if 0 <? start then start else int_of_float (clock w (reads s)) - DAY in
    let n := if 0 <? start then reads s else S (reads s) in
    let end' := if 0 <? end_ then end_ else int_of_float (clock w n) in
    let query := [ ("command", VStr "returnChartData");
                   ("currencyPair", VStr (upper pair));
                   ("start", VInt start'); ("end", VInt end') ] in
    performed (chart_data pair start end_ period) w s
    = (if 0 <? start then [] else [ReadClock])
        ++ (if 0 <? end_ then [] else [ReadClock])
        ++ blocks (self s)
        ++ [HttpGet (settings.public_url ++ urlencode query)]
    /\ keys query = ["command"; "currencyPair"; "start"; "end"]
    /\ (forall period' : Z,
           In period' candle_periods ->
           chart_data pair start end_ period' w s
           = chart_data pair start end_ period w s).
Proof.
  intros pair start end_ period w s H start' n end' query.
  split; [|split; [reflexivity|]].
  - apply performed_app. unfold chart_data.
    rewrite (a_candle_period period H). cbn [negb].
    unfold bind, positive_or. subst query end' n start'.
    destruct (0 <? start), (0 <? end_); unfold ret, time; cbn [reads log self];
      rewrite public_api_run; cbn [snd log self reads];
      now rewrite <- ?app_assoc.
  - intros period' H'. unfold chart_data.
    now rewrite (a_candle_period period H), (a_candle_period period' H').
Qed.

Lemma chart_data_omits_period_witness :
  performed (chart_data "btc_eth" 1500000000 0 300) quiet_world
            (fresh (Client JNull JNull true))
  = [ReadClock; Block;
     HttpGet "https://poloniex.com/public?command=returnChartData&currencyPair=BTC_ETH&start=1500000000&end=1500000000"].
Proof.
  apply (chart_data_omits_period "btc_eth" 1500000000 0 300 quiet_world
           (fresh (Client JNull JNull true))).
  left. reflexivity.
Defined.

(** *** Trade history *)

(** C10. In the mapping that [trade_history] posts, [limit] is 500 when the
    argument is above 10000, the argument when it is positive and at most
    10000, and absent otherwise; [end] is there, with the argument as its
    value, exactly when [end > 0] and [start < end]. *)
Theorem trade_history_limit_and_end :
  forall (pair : string) (start end_ limit : Z) (w : env) (s : state)
         (url : string) (headers : dict json) (data : dict value),
    In (HttpPost url headers data)
       (performed (trade_history pair start end_ limit) w s) ->
    get data "limit"
    = (if 10000 <? limit then Some (VInt 500)
       else if 0 <? limit then Some (VInt limit) else None)
    /\ get data "end"
       = (if (0 <? end_) && (start <? end_) then Some (VInt end_) else None).
Proof.
  intros pair start end_ limit w s url headers data H.
  apply trading_api_posts in H. subst data.
  rewrite !get_set_other by discriminate.
  unfold trade_history_kwargs.
  destruct (10000 <? limit) eqn:E1; [replace (0 <? 500) with true by reflexivity|];
    destruct (0 <? start), ((0 <? end_) && (start <? end_));
    try destruct (0 <? limit); split; reflexivity.
Qed.

Lemma trade_history_limit_and_end_witness :
  get (set (trade_history_kwargs "btc_eth" 10 20 20000) "nonce"
           (VInt 1500000000250)) "limit"
  = Some (VInt 500)
  /\ get (set (trade_history_kwargs "btc_eth" 10 20 20000) "nonce"
              (VInt 1500000000250)) "end"
     = Some (VInt 20).
Proof.
  eapply (trade_history_limit_and_end "btc_eth" 10 20 20000 quiet_world
            (fresh (Client (JStr "key") (JStr "secret") true))).
  unfold trade_history.
  rewrite (trading_api_performed _ quiet_world
             (fresh (Client (JStr "key") (JStr "secret") true))
             "secret" eq_refl eq_refl).
  right. right. left. reflexivity.
Defined.

End ApiFacts.

(** ** Signatures and query strings *)

Module TextFacts.
Import Text.

Lemma be_bytes_length (n : nat) (x : Z) : List.length (be_bytes n x) = n.
Proof. induction n; cbn [be_bytes List.length]; congruence. Qed.

Lemma be_bytes_range (n : nat) (x : Z) :
  Forall (fun b => 0 <= b < 256) (be_bytes n x).
Proof.
  induction n; cbn [be_bytes]; constructor; [|exact IHn].
  apply Z.mod_pos_bound. lia.
Qed.

Lemma fold_compress_length (blocks : list bytes) (h : list Z) :
  List.length h = 8%nat ->
  List.length (fold_left SHA512.compress blocks h) = 8%nat.
Proof.
  revert h. induction blocks as [|b blocks IH]; intros h Hh; [exact Hh|].
  cbn [fold_left]. apply IH. reflexivity.
Qed.

Lemma words_to_bytes_length (h : list Z) :
  List.length (flat_map (be_bytes 8) h) = (8 * List.length h)%nat.
Proof.
  induction h as [|x h IH]; [reflexivity|].
  cbn [flat_map]. rewrite length_app, be_bytes_length, IH. cbn [List.length]. lia.
Qed.

Lemma words_to_bytes_range (h : list Z) :
  Forall (fun b => 0 <= b < 256) (flat_map (be_bytes 8) h).
Proof.
  induction h as [|x h IH]; [constructor|].
  cbn [flat_map]. apply Forall_app. split; [apply be_bytes_range|exact IH].
Qed.

Lemma digest_length (m : bytes) : List.length (SHA512.digest m) = 64%nat.
Proof.
  unfold SHA512.digest. cbv zeta.
  rewrite words_to_bytes_length, fold_compress_length; reflexivity.
Qed.

Lemma digest_range (m : bytes) : Forall (fun b => 0 <= b < 256) (SHA512.digest m).
Proof. apply words_to_bytes_range. Qed.

Lemma hex_length (b : bytes) : String.length (hex b) = (2 * List.length b)%nat.
Proof. induction b as [|x b IH]; cbn [hex String.length List.length]; lia. Qed.

(** A test that passes on 0, ..., 15 passes below 16. *)
Lemma below_16 (p : Z -> bool) (n : Z) :
  0 <= n < 16 -> forallb p (map Z.of_nat (seq 0 16)) = true -> p n = true.
Proof.
  intros Hn Hall. rewrite forallb_forall in Hall. apply Hall.
  apply in_map_iff. exists (Z.to_nat n). split; [lia|].
  apply in_seq. lia.
Qed.

Lemma hexdigit_lower (n : Z) : 0 <= n < 16 -> is_lower_hex (hexdigit n) = true.
Proof.
  intros H. now apply (below_16 (fun k => is_lower_hex (hexdigit k)) n H).
Qed.

Lemma HEXDIGIT_safe (n : Z) : 0 <= n < 16 -> Py.always_safe (HEXDIGIT n) = true.
Proof.
  intros H. now apply (below_16 (fun k => Py.always_safe (HEXDIGIT k)) n H).
Qed.

Lemma nibbles (x : Z) : 0 <= x < 256 -> 0 <= x / 16 < 16 /\ 0 <= x mod 16 < 16.
Proof.
  intros H. split.
  - split; [apply Z.div_pos; lia|apply Z.div_lt_upper_bound; lia].
  - apply Z.mod_pos_bound. lia.
Qed.

Lemma hex_lower (b : bytes) :
  Forall (fun x => 0 <= x < 256) b -> all_chars is_lower_hex (hex b) = true.
Proof.
  unfold all_chars. induction 1 as [|x b Hx _ IH]; [reflexivity|].
  destruct (nibbles x Hx) as [Hh Hl].
  cbn [hex list_ascii_of_string forallb].
  now rewrite (hexdigit_lower _ Hh), (hexdigit_lower _ Hl), IH.
Qed.

(** X1. A signature is always 128 characters long and made of the digits
    0-9 and the letters a-f only, whatever the secret and the mapping. *)
Theorem sign_shape :
  forall (secret : string) (data : Py.dict Py.value),
    String.length (Api.sign secret data) = 128%nat
    /\ all_chars is_lower_hex (Api.sign secret data) = true.
Proof.
  intros secret data. unfold Api.sign, HMAC.hexdigest, HMAC.digest, HMAC.h_digest.
  split.
  - now rewrite hex_length, digest_length.
  - apply hex_lower, digest_range.
Qed.

(** *** [quote_plus], character by character *)

Lemma chars_app (a b : string) :
  list_ascii_of_string (a ++ b)
  = list_ascii_of_string a ++ list_ascii_of_string b.
Proof. induction a as [|c a IH]; cbn; [reflexivity|now rewrite IH]. Qed.

Lemma all_chars_app (p : ascii -> bool) (a b : string) :
  all_chars p (a ++ b) = all_chars p a && all_chars p b.
Proof. unfold all_chars. now rewrite chars_app, forallb_app. Qed.

Lemma ascii_range (c : ascii) : 0 <= Z.of_N (N_of_ascii c) < 256.
Proof. pose proof (N_ascii_bounded c). lia. Qed.

Lemma safe_is_not_space (c : ascii) :
  Py.always_safe c = true -> Ascii.eqb c " " = false.
Proof.
  intros H. destruct (Ascii.eqb_spec c " ") as [->|]; [discriminate|reflexivity].
Qed.

Lemma quote_without_space (s : string) :
  Py.in_string " " s = false -> Py.quote "" s = quote_plus_chars s.
Proof.
  induction s as [|c s IH]; [reflexivity|].
  unfold Py.in_string. cbn [list_ascii_of_string existsb].
  intros H. apply orb_false_elim in H. destruct H as [Hc Hs].
  rewrite Ascii.eqb_sym in Hc.
  cbn [Py.quote quote_plus_chars]. unfold quote_plus_char.
  rewrite (IH Hs), Hc.
  replace (Py.in_string c "") with false by reflexivity.
  rewrite orb_false_r. now destruct (Py.always_safe c).
Qed.

Lemma quote_with_space (s : string) :
  Py.replace_char " " "+" (Py.quote " " s) = quote_plus_chars s.
Proof.
  induction s as [|c s IH]; [reflexivity|].
  cbn [Py.quote quote_plus_chars]. unfold quote_plus_char.
  replace (Py.in_string c " ") with (Ascii.eqb c " ")
    by (unfold Py.in_string; cbn; now rewrite orb_false_r).
  destruct (Py.always_safe c) eqn:Hsafe; cbn [orb].
  - cbn [Py.replace_char]. now rewrite (safe_is_not_space c Hsafe), IH.
  - destruct (Ascii.eqb_spec c " ") as [->|Hne].
    + cbn [Py.replace_char]. now rewrite IH.
    + destruct (nibbles _ (ascii_range c)) as [Hh Hl].
      cbn [Py.replace_char].
      rewrite (safe_is_not_space _ (HEXDIGIT_safe _ Hh)).
      rewrite (safe_is_not_space _ (HEXDIGIT_safe _ Hl)).
      now rewrite IH.
Qed.

Lemma quote_plus_by_char (s : string) : Py.quote_plus s = quote_plus_chars s.
Proof.
  unfold Py.quote_plus. destruct (Py.in_string " " s) eqn:E; cbn [negb].
  - apply quote_with_space.
  - now apply quote_without_space.
Qed.

Lemma safe_is_quoted (c : ascii) :
  Py.always_safe c = true -> is_quoted_char c = true.
Proof. unfold is_quoted_char. now intros ->. Qed.

Lemma quote_plus_char_alphabet (c : ascii) :
  all_chars is_quoted_char (quote_plus_char c) = true.
Proof.
  unfold quote_plus_char.
  destruct (Py.always_safe c) eqn:Hsafe.
  - unfold all_chars. cbn. now rewrite (safe_is_quoted c Hsafe).
  - destruct (Ascii.eqb c " "); [reflexivity|].
    destruct (nibbles _ (ascii_range c)) as [Hh Hl].
    unfold all_chars. cbn [list_ascii_of_string forallb].
    rewrite (safe_is_quoted _ (HEXDIGIT_safe _ Hh)).
    now rewrite (safe_is_quoted _ (HEXDIGIT_safe _ Hl)).
Qed.

Lemma quote_plus_alphabet (s : string) :
  all_chars is_quoted_char (Py.quote_plus s) = true.
Proof.
  rewrite quote_plus_by_char.
  induction s as [|c s IH]; [reflexivity|].
  cbn [quote_plus_chars]. now rewrite all_chars_app, quote_plus_char_alphabet, IH.
Qed.

Lemma quoted_is_query (s : string) :
  all_chars is_quoted_char s = true -> all_chars is_query_char s = true.
Proof.
  unfold all_chars. induction s as [|c s IH]; [reflexivity|].
  cbn [list_ascii_of_string forallb]. intros H.
  apply andb_prop in H. destruct H as [Hc Hs].
  unfold is_query_char at 1. now rewrite Hc, (IH Hs).
Qed.

Lemma pair_alphabet (k : string) (v : Py.value) :
  all_chars is_query_char (Py.quote_plus k ++ "=" ++ Py.quote_plus (Py.str v)) = true.
Proof.
  rewrite !all_chars_app.
  rewrite !(quoted_is_query _ (quote_plus_alphabet _)). reflexivity.
Qed.

(** X2. The text [urlencode] makes of a mapping consists of letters, digits
    and the characters _ . - ~ % + = & only, whatever the names and values. *)
Theorem urlencode_alphabet :
  forall query : Py.dict Py.value,
    all_chars is_query_char (Py.urlencode query) = true.
Proof.
  intros query. unfold Py.urlencode.
  induction query as [|[k v] query IH]; [reflexivity|].
  cbn [map Py.join] in *.
  destruct (map _ query) as [|x rest] eqn:E.
  - apply pair_alphabet.
  - rewrite all_chars_app, pair_alphabet.
    rewrite all_chars_app, IH. reflexivity.
Qed.

(** *** Nothing is lost in quoting *)

Lemma byte_read_back (c : ascii) :
  let n := Z.of_N (N_of_ascii c) in
  ascii_of_N (Z.to_N (16 * unhex (HEXDIGIT (n / 16)) + unhex (HEXDIGIT (n mod 16))))
  = c.
Proof. destruct c as [[] [] [] [] [] [] [] []]; reflexivity. Qed.

Lemma read_quoted_char (c : ascii) (r : string) :
  read_quoted (quote_plus_char c ++ r) = String c (read_quoted r).
Proof.
  unfold quote_plus_char.
  destruct (Py.always_safe c) eqn:Hsafe.
  - cbn [append read_quoted].
    destruct (Ascii.eqb_spec c "+") as [->|_]; [discriminate|].
    destruct (Ascii.eqb_spec c "%") as [->|_]; [discriminate|reflexivity].
  - destruct (Ascii.eqb_spec c " ") as [->|_]; [reflexivity|].
    cbn [append read_quoted].
    replace (Ascii.eqb "%" "+") with false by reflexivity.
    replace (Ascii.eqb "%" "%") with true by reflexivity.
    now rewrite (byte_read_back c).
Qed.

Lemma read_quoted_chars (s : string) : read_quoted (quote_plus_chars s) = s.
Proof.
  induction s as [|c s IH]; [reflexivity|].
  cbn [quote_plus_chars]. now rewrite read_quoted_char, IH.
Qed.

Lemma quote_plus_injective (a b : string) :
  Py.quote_plus a = Py.quote_plus b -> a = b.
Proof.
  rewrite !quote_plus_by_char. intros H.
  now rewrite <- (read_quoted_chars a), <- (read_quoted_chars b), H.
Qed.

Lemma sapp_nil_r (a : string) : (a ++ "")%string = a.
Proof. induction a as [|c a IH]; cbn; [reflexivity|now rewrite IH]. Qed.

Lemma sapp_assoc (a b c : string) : ((a ++ b) ++ c = a ++ (b ++ c))%string.
Proof. induction a as [|x a IH]; cbn; [reflexivity|now rewrite IH]. Qed.

Lemma split_at_char (c : ascii) (a b x y : string) :
  all_chars (is_not c) a = true -> all_chars (is_not c) b = true ->
  (a ++ String c x = b ++ String c y)%string -> a = b /\ x = y.
Proof.
  unfold all_chars, is_not. revert b.
  induction a as [|d a IH]; intros [|e b] Ha Hb H; cbn in *.
  - injection H as ->. now split.
  - injection H as -> _. now rewrite Ascii.eqb_refl in Hb.
  - injection H as -> _. now rewrite Ascii.eqb_refl in Ha.
  - injection H as -> H.
    apply andb_prop in Ha. apply andb_prop in Hb.
    destruct (IH b (proj2 Ha) (proj2 Hb) H) as [-> ->]. now split.
Qed.

Lemma char_is_inside (c : ascii) (a b y : string) :
  all_chars (is_not c) a = true -> a <> (b ++ String c y)%string.
Proof.
  intros Ha ->. rewrite all_chars_app in Ha.
  apply andb_prop in Ha. destruct Ha as [_ Ha].
  unfold all_chars, is_not in Ha. cbn in Ha. now rewrite Ascii.eqb_refl in Ha.
Qed.

Lemma all_chars_impl (p q : ascii -> bool) (s : string) :
  (forall c, p c = true -> q c = true) ->
  all_chars p s = true -> all_chars q s = true.
Proof.
  intros Hpq. unfold all_chars.
  induction s as [|c s IH]; [reflexivity|].
  cbn [list_ascii_of_string forallb]. intros H.
  apply andb_prop in H. destruct H as [Hc Hs].
  now rewrite (Hpq c Hc), (IH Hs).
Qed.

Lemma quoted_has_no (c : ascii) (s : string) :
  is_quoted_char c = false -> all_chars (is_not c) (Py.quote_plus s) = true.
Proof.
  intros Hc. apply (all_chars_impl is_quoted_char); [|apply quote_plus_alphabet].
  intros d Hd. unfold is_not.
  destruct (Ascii.eqb_spec d c) as [->|_]; [congruence|reflexivity].
Qed.

Lemma urlencode_cons (k : string) (v : Py.value) (d : Py.dict Py.value) :
  Py.urlencode ((k, v) :: d)
  = (Py.quote_plus k
       ++ String "=" (Py.quote_plus (Py.str v)
                        ++ match d with
                           | [] => ""
                           | _ => String "&" (Py.urlencode d)
                           end))%string.
Proof.
  unfold Py.urlencode. cbn [map Py.join].
  destruct d as [|p d]; cbn [map].
  - now rewrite sapp_nil_r.
  - rewrite sapp_assoc. reflexivity.
Qed.

Lemma urlencode_texts (d : Py.dict Py.value) :
  Py.urlencode d
  = Py.urlencode (map (fun kt => (fst kt, Py.VStr (snd kt))) (texts d)).
Proof.
  unfold Py.urlencode, texts. rewrite !map_map. f_equal.
  apply map_ext. now intros [k v].
Qed.

Lemma urlencode_determines_texts (d1 d2 : Py.dict Py.value) :
  Py.urlencode d1 = Py.urlencode d2 -> texts d1 = texts d2.
Proof.
  revert d2.
  induction d1 as [|[k1 v1] d1 IH]; intros [|[k2 v2] d2] H.
  - reflexivity.
  - rewrite urlencode_cons in H.
    destruct (Py.quote_plus k2); discriminate.
  - rewrite urlencode_cons in H.
    destruct (Py.quote_plus k1); discriminate.
  - rewrite !urlencode_cons in H.
    apply (split_at_char "=") in H; try (now apply quoted_has_no).
    destruct H as [Hk H]. apply quote_plus_injective in Hk. subst k2.
    destruct d1 as [|p1 d1], d2 as [|p2 d2].
    + rewrite !sapp_nil_r in H. apply quote_plus_injective in H.
      cbn. now rewrite H.
    + rewrite sapp_nil_r in H. exfalso.
      revert H. apply (char_is_inside "&"). now apply quoted_has_no.
    + rewrite sapp_nil_r in H. exfalso. symmetry in H.
      revert H. apply (char_is_inside "&"). now apply quoted_has_no.
    + apply (split_at_char "&") in H; try (now apply quoted_has_no).
      destruct H as [Hv H]. apply quote_plus_injective in Hv.
      specialize (IH _ H). unfold texts in *. cbn [map fst snd] in *.
      now rewrite Hv, IH.
Qed.

(** X3. Two mappings have the same [urlencode] text exactly when they have
    the same names, in the same order, with values of the same text: the
    text that [sign] signs pins down the parameters up to [str] of their
    values. *)
Theorem urlencode_same_text :
  forall d1 d2 : Py.dict Py.value,
    Py.urlencode d1 = Py.urlencode d2 <-> texts d1 = texts d2.
Proof.
  intros d1 d2. split.
  - apply urlencode_determines_texts.
  - intros H. now rewrite (urlencode_texts d1), (urlencode_texts d2), H.
Qed.

End TextFacts.

(** ** The executors, on every path *)

Module ExecutorFacts.
Import Api ApiFacts.

(** Everything a trading call can add to the log: the opening of the
    credential file if the client lacks a credential; then nothing more, or
    a clock reading, or a clock reading, the rate limiter's turn and one
    POST of the mapping with its nonce, signed with the secret the client
    holds afterwards. *)
Lemma trading_api_shape (kwargs : dict value) (w : env) (s : state) :
  let c' := self (snd (_trading_api kwargs w s)) in
  let data := set kwargs "nonce" (VInt (nonce_at w (clock w (reads s)))) in
  exists tail,
    performed (_trading_api kwargs) w s
    = (if client_has_credentials (self s) then [] else [OpenSecrets]) ++ tail
    /\ (tail = []
        \/ tail = [ReadClock]
        \/ exists secret,
             px_secret c' = JStr secret
             /\ fst (_trading_api kwargs w s) = decoded w (log (snd (_trading_api kwargs w s)))
             /\ tail = [ReadClock] ++ blocks (self s)
                         ++ [HttpPost settings.trading_url
                               [("Sign", JStr (sign secret data)); ("Key", px_key c')]
                               data]).
Proof.
  cbv zeta.
  destruct (check_secrets_effect w s) as [Hr [Hrl Hl]].
  pose proof (trading_api_run kwargs w s) as E.
  destruct (_check_secrets w s) as [[[]|e] s1]; cbn [snd] in Hr, Hrl, Hl.
  - destruct (px_secret (self s1)) as [ |b|n|q| |sec|l|o] eqn:Hsec.
    6: { cbv zeta in E. rewrite E. cbn [fst snd self log].
         eexists. split.
         - apply performed_app. rewrite E. cbn [snd log].
           rewrite Hl, <- !app_assoc. reflexivity.
         - right. right. exists sec. split; [exact Hsec|]. split; [reflexivity|].
           unfold blocks. now rewrite Hr, Hrl. }
    all: exists [ReadClock]; split;
      [apply performed_app; rewrite E; cbn [snd log];
       now rewrite Hl, <- app_assoc
      |now right; left].
  - exists []. split; [|now left].
    apply performed_app. rewrite E. cbn [snd]. now rewrite Hl, app_nil_r.
Qed.

(** What a trading call posts, whichever way it got its credentials. *)
Lemma trading_api_posted (kwargs : dict value) (w : env) (s : state)
      (url : string) (headers : dict json) (data : dict value) :
  In (HttpPost url headers data) (performed (_trading_api kwargs) w s) ->
  let c' := self (snd (_trading_api kwargs w s)) in
  url = settings.trading_url
  /\ data = set kwargs "nonce" (VInt (nonce_at w (clock w (reads s))))
  /\ exists secret,
       px_secret c' = JStr secret
       /\ headers = [("Sign", JStr (sign secret data)); ("Key", px_key c')].
Proof.
  destruct (trading_api_shape kwargs w s) as [tail [E Hcases]].
  rewrite E. intros H. apply in_app_or in H. destruct H as [H|H].
  { destruct (client_has_credentials (self s)); [now elim H|].
    destruct H as [H|[]]; discriminate. }
  destruct Hcases as [->|[->|[secret [Hsec [_ ->]]]]].
  - now elim H.
  - destruct H as [H|[]]; discriminate.
  - apply in_app_or in H. destruct H as [H|H].
    { destruct H as [H|[]]; discriminate. }
    apply in_app_or in H. destruct H as [H|H].
    { unfold blocks in H. destruct (rate_limit (self s)); [|now elim H].
      destruct H as [H|[]]; discriminate. }
    destruct H as [H|[]]. injection H as <- <- <-.
    split; [reflexivity|]. split; [reflexivity|].
    exists secret. now split.
Qed.

(** X4. A trading call makes at most one HTTP request, and that request is a
    POST to the trading URL: no GET, no second attempt whatever the reply.
    When a request was made the call returns what the reply decodes to, or
    raises because there was no reply or no JSON in it. *)
Theorem trading_call_one_request :
  forall (kwargs : dict value) (w : env) (s : state),
    let evs := performed (_trading_api kwargs) w s in
    (List.length (filter is_http evs) <= 1)%nat
    /\ (forall e, In e evs -> is_http e = true ->
           exists headers data, e = HttpPost settings.trading_url headers data)
    /\ (existsb is_http evs = true ->
        fst (_trading_api kwargs w s)
        = decoded w (log (snd (_trading_api kwargs w s)))).
Proof.
  intros kwargs w s evs. subst evs.
  destruct (trading_api_shape kwargs w s) as [tail [E Hcases]].
  rewrite E. clear E.
  destruct Hcases as [->|[->|[secret [_ [Hres ->]]]]];
    unfold blocks;
    destruct (client_has_credentials (self s)), (rate_limit (self s));
    cbn [app filter is_http existsb orb List.length];
    (split; [lia|split]);
    try discriminate; try (intros _; exact Hres);
    intros e Hin He;
    repeat (destruct Hin as [<-|Hin]; [try discriminate; eauto|]);
    now elim Hin.
Qed.

Lemma keys_set {V} (d : dict V) (k : string) (v : V) :
  keys (set d k v)
  = if existsb (String.eqb k) (keys d) then keys d else keys d ++ [k].
Proof.
  unfold keys. induction d as [|[k0 v0] d IH]; [reflexivity|].
  cbn [set map fst existsb]. rewrite (String.eqb_sym k k0).
  destruct (String.eqb k0 k); cbn [orb map fst]; [reflexivity|].
  rewrite IH. now destruct (existsb (String.eqb k) (map fst d)).
Qed.

(** X5. The mapping a trading call posts is the caller's mapping with the
    nonce of the call's clock reading: a nonce the caller supplied is
    overwritten in its place, every other parameter is posted with the value
    given, and the names keep their order, with [nonce] last when it is
    new. The POST goes to the trading URL. *)
Theorem trading_call_parameters :
  forall (kwargs : dict value) (w : env) (s : state)
         (url : string) (headers : dict json) (data : dict value),
    In (HttpPost url headers data) (performed (_trading_api kwargs) w s) ->
    url = settings.trading_url
    /\ get data "nonce" = Some (VInt (nonce_at w (clock w (reads s))))
    /\ (forall k, k <> "nonce" -> get data k = get kwargs k)
    /\ keys data
       = if existsb (String.eqb "nonce") (keys kwargs) then keys kwargs
         else keys kwargs ++ ["nonce"].
Proof.
  intros kwargs w s url headers data H.
  apply trading_api_posted in H. destruct H as [-> [-> _]].
  split; [reflexivity|]. split; [apply get_set_same|].
  split; [|apply keys_set].
  intros k Hk. apply get_set_other. congruence.
Qed.

Lemma trading_call_parameters_witness :
  let kwargs := [("command", VStr "cancelOrder"); ("nonce", VInt 1);
                 ("orderNumber", VStr "17")] in
  let data := [("command", VStr "cancelOrder"); ("nonce", VInt 1500000000250);
               ("orderNumber", VStr "17")] in
  get data "nonce" = Some (VInt 1500000000250)
  /\ (forall k, k <> "nonce" -> get data k = get kwargs k)
  /\ keys data = ["command"; "nonce"; "orderNumber"].
Proof.
  pose (c := Client (JStr "key") (JStr "secret") true).
  pose (kwargs := [("command", VStr "cancelOrder"); ("nonce", VInt 1);
                   ("orderNumber", VStr "17")]).
  eapply (trading_call_parameters kwargs quiet_world (fresh c)).
  rewrite (trading_api_performed kwargs quiet_world (fresh c) "secret"
             eq_refl eq_refl).
  right. right. left. reflexivity.
Defined.

(** X6. Whatever a trading call posts carries exactly two headers: [Sign],
    the signature of the posted mapping itself under the secret the client
    holds after the call, and [Key], the key it holds then. *)
Theorem posted_body_is_signed :
  forall (kwargs : dict value) (w : env) (s : state)
         (url : string) (headers : dict json) (data : dict value),
    In (HttpPost url headers data) (performed (_trading_api kwargs) w s) ->
    let c' := self (snd (_trading_api kwargs w s)) in
    exists secret,
      px_secret c' = JStr secret
      /\ headers = [("Sign", JStr (sign secret data)); ("Key", px_key c')].
Proof.
  intros kwargs w s url headers data H.
  now apply trading_api_posted in H.
Qed.

Lemma posted_body_is_signed_witness :
  let data := [("command", VStr "returnBalances"); ("nonce", VInt 1500000000250)] in
  exists secret,
    JStr "secret" = JStr secret
    /\ [("Sign", JStr (sign "secret" data)); ("Key", JStr "key")]
       = [("Sign", JStr (sign secret data)); ("Key", JStr "key")].
Proof.
  pose (c := Client (JStr "key") (JStr "secret") true).
  pose (kwargs := [("command", VStr "returnBalances")]).
  pose proof (trading_api_with_credentials kwargs quiet_world (fresh c) "secret"
                eq_refl eq_refl) as E.
  cbv zeta in E.
  pose proof (posted_body_is_signed kwargs quiet_world (fresh c)
                settings.trading_url
                [("Sign", JStr (sign "secret"
                                  [("command", VStr "returnBalances");
                                   ("nonce", VInt 1500000000250)]));
                 ("Key", JStr "key")]
                [("command", VStr "returnBalances"); ("nonce", VInt 1500000000250)])
    as H.
  rewrite E in H. cbn [snd self px_secret px_key fresh] in H.
  apply H.
  rewrite (trading_api_performed kwargs quiet_world (fresh c) "secret"
             eq_refl eq_refl).
  right. right. left. reflexivity.
Defined.

(** X7. When the credential check passes but the secret is not a string (a
    number in the credential file, say), the call raises AttributeError
    after its clock reading: the rate limiter is not called and nothing is
    sent. *)
Theorem secret_must_be_text :
  forall (kwargs : dict value) (w : env) (s s1 : state),
    _check_secrets w s = (Ok tt, s1) ->
    (forall text, px_secret (self s1) <> JStr text) ->
    _trading_api kwargs w s
    = (Raise AttributeError,
       State (self s1) (S (reads s1)) (log s1 ++ [ReadClock])).
Proof.
  intros kwargs w s s1 Hcheck Hsec.
  rewrite trading_api_run, Hcheck.
  destruct (px_secret (self s1)) as [ |b|n|q| |text|l|o]; try reflexivity.
  now elim (Hsec text).
Qed.

Lemma secret_must_be_text_witness :
  let w := Env (fun _ => 0%Q) exact exact_mono
               (Loaded (JObj [("key", JStr "abc"); ("secret", JInt 12345)]))
               (fun _ => Replied (Some JNull)) in
  _trading_api [("command", VStr "returnBalances")] w (fresh (Client JNull JNull true))
  = (Raise AttributeError,
     State (Client (JStr "abc") (JInt 12345) true) 1 [OpenSecrets; ReadClock]).
Proof.
  apply (secret_must_be_text [("command", VStr "returnBalances")]
           (Env (fun _ => 0%Q) exact exact_mono
                (Loaded (JObj [("key", JStr "abc"); ("secret", JInt 12345)]))
                (fun _ => Replied (Some JNull)))
           (fresh (Client JNull JNull true))
           (State (Client (JStr "abc") (JInt 12345) true) 0 [OpenSecrets])).
  - reflexivity.
  - intros text. cbn. discriminate.
Defined.

(** *** Credentials *)

Lemma check_secrets_loaded (w : env) (s : state) (d : dict json)
      (key secret : json) :
  client_has_credentials (self s) = false ->
  secret_file w = Loaded (JObj d) ->
  get d "key" = Some key -> get d "secret" = Some secret ->
  truthy key = true -> truthy secret = true ->
  _check_secrets w s
  = (Ok tt, State (Client key secret (rate_limit (self s))) (reads s)
                  (log s ++ [OpenSecrets])).
Proof.
  unfold _check_secrets, client_has_credentials, obj_get, bind, get_state,
    emit, ask, put_state, raise, ret.
  intros -> -> Hk Hs Hkt Hst. cbn [self reads log].
  now rewrite Hk, Hs, Hkt, Hst.
Qed.

(** X8. A client that lacks one credential takes both from the credential
    file: a key it already had is replaced by the file's, and the request
    goes out under the file's key and secret. *)
Theorem credentials_come_from_file_together :
  forall (kwargs : dict value) (w : env) (s : state) (d : dict json)
         (key : json) (secret : string),
    client_has_credentials (self s) = false ->
    secret_file w = Loaded (JObj d) ->
    get d "key" = Some key -> get d "secret" = Some (JStr secret) ->
    truthy key = true -> secret <> "" ->
    let data := set kwargs "nonce" (VInt (nonce_at w (clock w (reads s)))) in
    self (snd (_trading_api kwargs w s))
    = Client key (JStr secret) (rate_limit (self s))
    /\ performed (_trading_api kwargs) w s
       = [OpenSecrets; ReadClock] ++ blocks (self s)
           ++ [HttpPost settings.trading_url
                 [("Sign", JStr (sign secret data)); ("Key", key)] data].
Proof.
  intros kwargs w s d key secret Hc Hf Hk Hs Hkt Hst data.
  assert (Hstt : truthy (JStr secret) = true).
  { cbn. destruct (String.eqb_spec secret ""); [contradiction|reflexivity]. }
  pose proof (check_secrets_loaded w s d key (JStr secret) Hc Hf Hk Hs Hkt Hstt)
    as Hcheck.
  pose proof (trading_api_run kwargs w s) as E.
  rewrite Hcheck in E. cbn [self px_secret px_key reads log] in E. cbv zeta in E.
  split.
  - now rewrite E.
  - apply performed_app. rewrite E. cbn [snd log].
    unfold blocks. cbn [self rate_limit]. subst data.
    now rewrite <- !app_assoc.
Qed.

Lemma credentials_come_from_file_together_witness :
  let w := Env (fun _ => 3 # 2) exact exact_mono
               (Loaded (JObj [("key", JStr "filekey"); ("secret", JStr "filesecret")]))
               (fun _ => Replied (Some JNull)) in
  let s := fresh (Client (JStr "ownkey") JNull false) in
  let data := [("command", VStr "returnBalances"); ("nonce", VInt 1500)] in
  self (snd (_trading_api [("command", VStr "returnBalances")] w s))
  = Client (JStr "filekey") (JStr "filesecret") false
  /\ performed (_trading_api [("command", VStr "returnBalances")]) w s
     = [OpenSecrets; ReadClock;
        HttpPost settings.trading_url
          [("Sign", JStr (sign "filesecret" data)); ("Key", JStr "filekey")] data].
Proof.
  apply (credentials_come_from_file_together
           [("command", VStr "returnBalances")]
           (Env (fun _ => 3 # 2) exact exact_mono
                (Loaded (JObj [("key", JStr "filekey");
                               ("secret", JStr "filesecret")]))
                (fun _ => Replied (Some JNull)))
           (fresh (Client (JStr "ownkey") JNull false))
           [("key", JStr "filekey"); ("secret", JStr "filesecret")]
           (JStr "filekey") "filesecret");
    try reflexivity; discriminate.
Defined.

(** X9. Credentials are read from the file once: after a trading call that
    loaded them, the client holds them, and a later trading call does not
    open the file again, whatever has become of the file. *)
Theorem credentials_are_loaded_once :
  forall (ka kb : dict value) (w w' : env) (s : state) (d : dict json)
         (key secret : json),
    client_has_credentials (self s) = false ->
    secret_file w = Loaded (JObj d) ->
    get d "key" = Some key -> get d "secret" = Some secret ->
    truthy key = true -> truthy secret = true ->
    let s1 := snd (_trading_api ka w s) in
    In OpenSecrets (performed (_trading_api ka) w s)
    /\ px_key (self s1) = key /\ px_secret (self s1) = secret
    /\ ~ In OpenSecrets (performed (_trading_api kb) w' s1).
Proof.
  intros ka kb w w' s d key secret Hc Hf Hk Hs Hkt Hst s1.
  pose proof (check_secrets_loaded w s d key secret Hc Hf Hk Hs Hkt Hst) as Hcheck.
  assert (Hself : self s1 = Client key secret (rate_limit (self s))).
  { subst s1. rewrite trading_api_run, Hcheck. cbn [self px_secret].
    now destruct secret. }
  split.
  - destruct (trading_api_shape ka w s) as [tail [E _]].
    rewrite E, Hc. now left.
  - rewrite Hself. cbn [px_key px_secret]. split; [reflexivity|].
    split; [reflexivity|].
    destruct (trading_api_shape kb w' s1) as [tail [E Hcases]].
    rewrite E. unfold client_has_credentials at 1. rewrite Hself.
    cbn [px_key px_secret]. rewrite Hkt, Hst. cbn [andb app].
    destruct Hcases as [->|[->|[sec [_ [_ ->]]]]]; unfold blocks;
      try destruct (rate_limit (self s1)); cbn [app In];
      intros H; repeat (destruct H as [H|H]; [discriminate|]); exact H.
Qed.

Lemma credentials_are_loaded_once_witness :
  let w := Env (fun _ => 3 # 2) exact exact_mono
               (Loaded (JObj [("key", JStr "filekey"); ("secret", JStr "filesecret")]))
               (fun _ => Replied (Some JNull)) in
  let s := fresh (Client JNull JNull true) in
  let s1 := snd (_trading_api [("command", VStr "returnBalances")] w s) in
  In OpenSecrets (performed (_trading_api [("command", VStr "returnBalances")]) w s)
  /\ px_key (self s1) = JStr "filekey" /\ px_secret (self s1) = JStr "filesecret"
  /\ ~ In OpenSecrets
        (performed (_trading_api [("command", VStr "returnFeeInfo")]) quiet_world s1).
Proof.
  apply (credentials_are_loaded_once
           [("command", VStr "returnBalances")] [("command", VStr "returnFeeInfo")]
           (Env (fun _ => 3 # 2) exact exact_mono
                (Loaded (JObj [("key", JStr "filekey");
                               ("secret", JStr "filesecret")]))
                (fun _ => Replied (Some JNull)))
           quiet_world
           (fresh (Client JNull JNull true))
           [("key", JStr "filekey"); ("secret", JStr "filesecret")]
           (JStr "filekey") (JStr "filesecret"));
    reflexivity.
Defined.

(** X10. A credential check that raises leaves the client as it was: a file
    holding a key but no secret does not give the client that key. *)
Theorem failed_check_keeps_client :
  forall (w : env) (s s' : state) (e : exn),
    _check_secrets w s = (Raise e, s') -> self s' = self s.
Proof.
  unfold _check_secrets, obj_get, bind, get_state, emit, ask, put_state,
    raise, ret.
  intros w s s' e.
  destruct (truthy (px_key (self s)) && truthy (px_secret (self s)));
    [discriminate|].
  cbn [self reads log].
  destruct (secret_file w) as [| |j]; try (now intros [= _ <-]).
  destruct j; try (now intros [= _ <-]).
  destruct (negb (truthy _)); [now intros [= _ <-]|].
  destruct (negb (truthy _)); [now intros [= _ <-]|discriminate].
Qed.

Lemma failed_check_keeps_client_witness :
  self (State (Client JNull JNull true) 0 [OpenSecrets]) = self (fresh (Client JNull JNull true)).
Proof.
  apply (failed_check_keeps_client
           (Env (fun _ => 0%Q) exact exact_mono
                (Loaded (JObj [("key", JStr "filekey")]))
                (fun _ => Replied (Some JNull)))
           (fresh (Client JNull JNull true))
           (State (Client JNull JNull true) 0 [OpenSecrets])
           (SecretKeyError "poloniex secrets module is missing secret value")).
  reflexivity.
Defined.

(** *** The rate limit flag *)

Lemma public_api_performed (kwargs : dict value) (w : env) (s : state) :
  performed (_public_api kwargs) w s
  = blocks (self s) ++ [HttpGet (settings.public_url ++ urlencode kwargs)].
Proof. apply performed_app. now rewrite public_api_run. Qed.

(** X11. With [rate_limit] off on the client, neither a trading call nor a
    public call ever calls [block]. *)
Theorem rate_limit_off_never_blocks :
  forall (kwargs : dict value) (w : env) (s : state),
    rate_limit (self s) = false ->
    ~ In Block (performed (_trading_api kwargs) w s)
    /\ ~ In Block (performed (_public_api kwargs) w s).
Proof.
  intros kwargs w s Hoff. split.
  - destruct (trading_api_shape kwargs w s) as [tail [E Hcases]].
    rewrite E. unfold blocks in Hcases. rewrite Hoff in Hcases.
    destruct Hcases as [->|[->|[sec [_ [_ ->]]]]];
      destruct (client_has_credentials (self s)); cbn [app In];
      intros H; repeat (destruct H as [H|H]; [discriminate|]); exact H.
  - rewrite public_api_performed. unfold blocks. rewrite Hoff. cbn [app In].
    intros [H|[]]. discriminate.
Qed.

Lemma rate_limit_off_never_blocks_witness :
  let s := fresh (Client (JStr "key") (JStr "secret") false) in
  ~ In Block (performed (_trading_api [("command", VStr "returnBalances")])
                        quiet_world s)
  /\ ~ In Block (performed (_public_api [("command", VStr "returnBalances")])
                           quiet_world s).
Proof.
  apply (rate_limit_off_never_blocks [("command", VStr "returnBalances")]
           quiet_world (fresh (Client (JStr "key") (JStr "secret") false))).
  reflexivity.
Defined.

(** X12. With [rate_limit] on, every HTTP request of a trading call or of a
    public call comes right after a call of [block]. *)
Theorem rate_limit_on_guards_requests :
  forall (kwargs : dict value) (w : env) (s : state),
    rate_limit (self s) = true ->
    guarded false (performed (_trading_api kwargs) w s) = true
    /\ guarded false (performed (_public_api kwargs) w s) = true.
Proof.
  intros kwargs w s Hon. split.
  - destruct (trading_api_shape kwargs w s) as [tail [E Hcases]].
    rewrite E. unfold blocks in Hcases. rewrite Hon in Hcases.
    destruct Hcases as [->|[->|[sec [_ [_ ->]]]]];
      destruct (client_has_credentials (self s)); reflexivity.
  - rewrite public_api_performed. unfold blocks. now rewrite Hon.
Qed.

Lemma rate_limit_on_guards_requests_witness :
  let s := fresh (Client (JStr "key") (JStr "secret") true) in
  guarded false (performed (_trading_api [("command", VStr "returnBalances")])
                           quiet_world s) = true
  /\ guarded false (performed (_public_api [("command", VStr "returnBalances")])
                              quiet_world s) = true.
Proof.
  apply (rate_limit_on_guards_requests [("command", VStr "returnBalances")]
           quiet_world (fresh (Client (JStr "key") (JStr "secret") true))).
  reflexivity.
Defined.

(** *** Candlestick data: the default range *)

(** X13. Without a start and an end ([start <= 0] and [end <= 0]),
    [chart_data] reads the clock twice and asks for a range that ends at the
    second reading and spans at least a day, provided the second reading is
    not below the first. *)
Theorem chart_data_default_range :
  forall (pair : string) (start end_ period : Z) (w : env) (s : state),
    In period candle_periods -> start <= 0 -> end_ <= 0 ->
    (clock w (reads s) <= clock w (S (reads s)))%Q ->
    let start' := int_of_float (clock w (reads s)) - DAY in
    let end' := int_of_float (clock w (S (reads s))) in
    performed (chart_data pair start end_ period) w s
    = [ReadClock; ReadClock] ++ blocks (self s)
        ++ [HttpGet (settings.public_url
                       ++ urlencode [ ("command", VStr "returnChartData");
                                      ("currencyPair", VStr (upper pair));
                                      ("start", VInt start');
                                      ("end", VInt end') ])]
    /\ 86400 <= end' - start'.
Proof.
  intros pair start end_ period w s Hp Hs He Hclock start' end'.
  split.
  - apply performed_app. unfold chart_data.
    rewrite (a_candle_period period Hp). cbn [negb].
    unfold bind, positive_or.
    replace (0 <? start) with false by (symmetry; apply Z.ltb_ge; lia).
    replace (0 <? end_) with false by (symmetry; apply Z.ltb_ge; lia).
    unfold ret, time. cbn [reads log self].
    rewrite public_api_run. cbn [snd log self reads].
    now rewrite <- !app_assoc.
  - subst start' end'. apply int_of_float_mono in Hclock.
    change DAY with 86400. lia.
Qed.

Lemma chart_data_default_range_witness :
  performed (chart_data "btc_eth" 0 0 1800) ticking_world
            (fresh (Client JNull JNull false))
  = [ReadClock; ReadClock;
     HttpGet "https://poloniex.com/public?command=returnChartData&currencyPair=BTC_ETH&start=1499913600&end=1500000001"]
  /\ 86400 <= 1500000001 - 1499913600.
Proof.
  apply (chart_data_default_range "btc_eth" 0 0 1800 ticking_world
           (fresh (Client JNull JNull false))).
  - right. right. left. reflexivity.
  - lia.
  - lia.
  - unfold Qle. cbn. lia.
Defined.

End ExecutorFacts.

(** ** The endpoint wrappers *)

Module WrapperFacts.
Import Api ApiFacts.

(** What a wrapper of the trading executor posts under a name other than
    [nonce] is what it put in its mapping. *)
Lemma posted_parameter (kwargs : dict value) (w : env) (s : state)
      (url : string) (headers : dict json) (data : dict value) (k : string) :
  In (HttpPost url headers data) (performed (_trading_api kwargs) w s) ->
  k <> "nonce" -> get data k = get kwargs k.
Proof.
  intros H Hk. apply trading_api_posts in H. subst data.
  apply get_set_other. congruence.
Qed.

(** X14. [public_trade_history] sends [start] and [end] exactly when they
    are not zero, a negative number included, after the command and the
    upper-cased pair; it makes one GET and reads no clock. *)
Theorem public_trade_history_query :
  forall (pair : string) (start end_ : Z) (w : env) (s : state),
    let query :=
      [("command", VStr "returnTradeHistory"); ("currencyPair", VStr (upper pair))]
        ++ (if start =? 0 then [] else [("start", VInt start)])
        ++ (if end_ =? 0 then [] else [("end", VInt end_)]) in
    performed (public_trade_history pair start end_) w s
    = blocks (self s) ++ [HttpGet (settings.public_url ++ urlencode query)]
    /\ reads (snd (public_trade_history pair start end_ w s)) = reads s.
Proof.
  intros pair start end_ w s query. unfold public_trade_history.
  split.
  - apply performed_app. rewrite public_api_run. cbn [snd log].
    subst query. unfold public_trade_history_kwargs.
    destruct (start =? 0), (end_ =? 0); reflexivity.
  - now rewrite public_api_run.
Qed.

(** X15. Whatever [trade_history] posts names the command and the
    upper-cased pair, and its numbers are sound: [limit], when sent, is
    between 1 and 10000; [start], when sent, is the positive argument;
    [end], when sent, is positive and above the [start] argument. *)
Theorem trade_history_sends_sound_ranges :
  forall (pair : string) (start end_ limit : Z) (w : env) (s : state)
         (url : string) (headers : dict json) (data : dict value),
    In (HttpPost url headers data)
       (performed (trade_history pair start end_ limit) w s) ->
    get data "command" = Some (VStr "returnTradeHistory")
    /\ get data "currencyPair" = Some (VStr (upper pair))
    /\ (forall v, get data "limit" = Some v ->
                  exists n, v = VInt n /\ 0 < n <= 10000)
    /\ (forall v, get data "start" = Some v -> v = VInt start /\ 0 < start)
    /\ (forall v, get data "end" = Some v ->
                  v = VInt end_ /\ 0 < end_ /\ start < end_).
Proof.
  intros pair start end_ limit w s url headers data H.
  unfold trade_history in H.
  rewrite !(posted_parameter _ _ _ _ _ _ _ H) by discriminate.
  unfold trade_history_kwargs.
  set (lim := if 10000 <? limit then 500 else limit).
  assert (Hlim : (0 <? lim) = true -> 0 < lim <= 10000).
  { subst lim. destruct (Z.ltb_spec 10000 limit) as [Hbig|Hsmall]; intros Hpos;
      apply Z.ltb_lt in Hpos; lia. }
  destruct (0 <? lim) eqn:E0, (0 <? start) eqn:E2,
           ((0 <? end_) && (start <? end_)) eqn:E3;
    cbn; (split; [|split; [|split; [|split]]]);
    try reflexivity; intros v Hv; try discriminate; injection Hv as <-.
  all: try (exists lim; split; [reflexivity|now apply Hlim]).
  all: try (split; [reflexivity|now apply Z.ltb_lt]).
  all: apply andb_prop in E3; destruct E3 as [Ha Hb];
    apply Z.ltb_lt in Ha, Hb; now repeat split.
Qed.

Lemma trade_history_sends_sound_ranges_witness :
  let data := set (trade_history_kwargs "btc_eth" 10 20 20000) "nonce"
                  (VInt 1500000000250) in
  get data "command" = Some (VStr "returnTradeHistory")
  /\ get data "currencyPair" = Some (VStr (upper "btc_eth"))
  /\ (forall v, get data "limit" = Some v ->
                exists n, v = VInt n /\ 0 < n <= 10000)
  /\ (forall v, get data "start" = Some v -> v = VInt 10 /\ 0 < 10)
  /\ (forall v, get data "end" = Some v -> v = VInt 20 /\ 0 < 20 /\ 10 < 20).
Proof.
  eapply (trade_history_sends_sound_ranges "btc_eth" 10 20 20000 quiet_world
            (fresh (Client (JStr "key") (JStr "secret") true))).
  unfold trade_history.
  rewrite (trading_api_performed _ quiet_world
             (fresh (Client (JStr "key") (JStr "secret") true))
             "secret" eq_refl eq_refl).
  right. right. left. reflexivity.
Defined.

(** X16. [buy] and [sell] post the three order flags as the numbers 0 and
    1, not as booleans, and what [sell] posts is what [buy] posts for the
    same arguments with the command replaced. *)
Theorem buy_and_sell_differ_in_command :
  forall (pair : string) (rate amount : value) (fok ioc po : bool)
         (w : env) (s : state)
         (ub us : string) (hb hs : dict json) (db ds : dict value),
    In (HttpPost ub hb db) (performed (buy pair rate amount fok ioc po) w s) ->
    In (HttpPost us hs ds) (performed (sell pair rate amount fok ioc po) w s) ->
    ds = set db "command" (VStr "sell")
    /\ get db "command" = Some (VStr "buy")
    /\ get db "fillOrKill" = Some (VInt (if fok then 1 else 0))
    /\ get db "immediateOrCancel" = Some (VInt (if ioc then 1 else 0))
    /\ get db "postOnly" = Some (VInt (if po then 1 else 0)).
Proof.
  intros pair rate amount fok ioc po w s ub us hb hs db ds Hb Hs.
  unfold buy in Hb. unfold sell in Hs.
  rewrite !(posted_parameter _ _ _ _ _ _ _ Hb) by discriminate.
  apply trading_api_posts in Hb. apply trading_api_posts in Hs. subst db ds.
  now repeat split.
Qed.

Lemma buy_and_sell_differ_in_command_witness :
  let nonce := VInt 1500000000250 in
  let db := set (order_kwargs "buy" "btc_eth" (VStr "0.025") (VInt 3)
                              true false false) "nonce" nonce in
  let ds := set (order_kwargs "sell" "btc_eth" (VStr "0.025") (VInt 3)
                              true false false) "nonce" nonce in
  ds = set db "command" (VStr "sell")
  /\ get db "command" = Some (VStr "buy")
  /\ get db "fillOrKill" = Some (VInt 1)
  /\ get db "immediateOrCancel" = Some (VInt 0)
  /\ get db "postOnly" = Some (VInt 0).
Proof.
  pose (c := Client (JStr "key") (JStr "secret") true).
  eapply (buy_and_sell_differ_in_command "btc_eth" (VStr "0.025") (VInt 3)
            true false false quiet_world (fresh c)).
  - unfold buy.
    rewrite (trading_api_performed _ quiet_world (fresh c) "secret"
               eq_refl eq_refl).
    right. right. left. reflexivity.
  - unfold sell.
    rewrite (trading_api_performed _ quiet_world (fresh c) "secret"
               eq_refl eq_refl).
    right. right. left. reflexivity.
Defined.

(** X17. [move_order] posts the order number and the rate as text, the
    post-only flag under the name [post_only] (there is no [postOnly]), and
    an [amount] only when the amount is positive. *)
Theorem move_order_parameters :
  forall (order_number rate : value) (amount : Z) (ioc po : bool)
         (w : env) (s : state)
         (url : string) (headers : dict json) (data : dict value),
    In (HttpPost url headers data)
       (performed (move_order order_number rate amount ioc po) w s) ->
    get data "orderNumber" = Some (VStr (str order_number))
    /\ get data "rate" = Some (VStr (str rate))
    /\ get data "post_only" = Some (VInt (if po then 1 else 0))
    /\ get data "postOnly" = None
    /\ get data "amount" = (if 0 <? amount then Some (VInt amount) else None).
Proof.
  intros order_number rate amount ioc po w s url headers data H.
  unfold move_order in H.
  rewrite !(posted_parameter _ _ _ _ _ _ _ H) by discriminate.
  unfold move_order_kwargs.
  destruct (0 <? amount); now repeat split.
Qed.

Lemma move_order_parameters_witness :
  let data := set (move_order_kwargs (VInt 17) (VStr "0.025") 0 false true)
                  "nonce" (VInt 1500000000250) in
  get data "orderNumber" = Some (VStr "17")
  /\ get data "rate" = Some (VStr "0.025")
  /\ get data "post_only" = Some (VInt 1)
  /\ get data "postOnly" = None
  /\ get data "amount" = None.
Proof.
  pose (c := Client (JStr "key") (JStr "secret") true).
  eapply (move_order_parameters (VInt 17) (VStr "0.025") 0 false true
            quiet_world (fresh c)).
  unfold move_order.
  rewrite (trading_api_performed _ quiet_world (fresh c) "secret"
             eq_refl eq_refl).
  right. right. left. reflexivity.
Defined.

(** X18. [withdraw] posts the upper-cased currency, the amount as given and
    the address as text, and a [paymentId] exactly when the payment id is
    truthy: None, an empty string and 0 send none. *)
Theorem withdraw_parameters :
  forall (currency : string) (amount address payment_id : value)
         (w : env) (s : state)
         (url : string) (headers : dict json) (data : dict value),
    In (HttpPost url headers data)
       (performed (withdraw currency amount address payment_id) w s) ->
    get data "command" = Some (VStr "withdraw")
    /\ get data "currency" = Some (VStr (upper currency))
    /\ get data "amount" = Some amount
    /\ get data "address" = Some (VStr (str address))
    /\ get data "paymentId"
       = (if value_truthy payment_id then Some payment_id else None).
Proof.
  intros currency amount address payment_id w s url headers data H.
  unfold withdraw in H.
  rewrite !(posted_parameter _ _ _ _ _ _ _ H) by discriminate.
  unfold withdraw_kwargs.
  destruct (value_truthy payment_id); now repeat split.
Qed.

Lemma withdraw_parameters_witness :
  let data := set (withdraw_kwargs "xmr" (VInt 2) (VStr "4ABC") (VStr ""))
                  "nonce" (VInt 1500000000250) in
  get data "command" = Some (VStr "withdraw")
  /\ get data "currency" = Some (VStr "XMR")
  /\ get data "amount" = Some (VInt 2)
  /\ get data "address" = Some (VStr "4ABC")
  /\ get data "paymentId" = None.
Proof.
  pose (c := Client (JStr "key") (JStr "secret") true).
  eapply (withdraw_parameters "xmr" (VInt 2) (VStr "4ABC") (VStr "")
            quiet_world (fresh c)).
  unfold withdraw.
  rewrite (trading_api_performed _ quiet_world (fresh c) "secret"
             eq_refl eq_refl).
  right. right. left. reflexivity.
Defined.

End WrapperFacts.

(** ** The ticker decoder, for every payload *)

Module TickerFacts.
Import Px.

Lemma set_fresh {V} (d : dict V) (k : string) (v : V) :
  ~ In k (keys d) -> set d k v = d ++ [(k, v)].
Proof.
  unfold keys. induction d as [|[k0 v0] d IH]; intros H; [reflexivity|].
  cbn [set app]. cbn [map fst] in H.
  destruct (String.eqb_spec k0 k) as [->|_].
  - elim H. now left.
  - rewrite IH; [reflexivity|]. intros Hin. apply H. now right.
Qed.

(** The comprehension pairs names with values in order, as long as there
    are names left and no name comes twice. *)
Lemma comprehension_zip (fields : list string) (items : list json) :
  forall (pre post : list string) (acc : dict json),
    fields = pre ++ post -> keys acc = pre -> NoDup fields ->
    (List.length items <= List.length post)%nat ->
    comprehension fields (List.length pre) items acc
    = Ok (acc ++ combine post items).
Proof.
  induction items as [|v items IH]; intros pre post acc Hf Hk Hnd Hlen.
  - cbn [comprehension]. destruct post; cbn [combine]; now rewrite app_nil_r.
  - destruct post as [|f post]; [cbn in Hlen; lia|].
    cbn [comprehension].
    assert (Hnth : nth_error fields (List.length pre) = Some f).
    { subst fields. rewrite nth_error_app2 by lia. now rewrite Nat.sub_diag. }
    rewrite Hnth.
    assert (Hfresh : ~ In f (keys acc)).
    { rewrite Hk. subst fields. apply NoDup_remove_2 in Hnd.
      intros Hin. apply Hnd. apply in_or_app. now left. }
    rewrite (set_fresh acc f v Hfresh).
    replace (S (List.length pre)) with (List.length (pre ++ [f]))
      by (rewrite length_app; cbn; lia).
    rewrite (IH (pre ++ [f]) post (acc ++ [(f, v)])).
    + cbn [combine]. now rewrite <- app_assoc.
    + now rewrite <- app_assoc.
    + unfold keys in *. rewrite map_app, Hk. reflexivity.
    + exact Hnd.
    + cbn in Hlen. lia.
Qed.

(** Past the last name the comprehension raises. *)
Lemma comprehension_overflow (fields : list string) (items : list json) :
  forall (i : nat) (acc : dict json),
    (i <= List.length fields)%nat ->
    (List.length fields < i + List.length items)%nat ->
    comprehension fields i items acc = Raise IndexError.
Proof.
  induction items as [|v items IH]; intros i acc Hi Hlen.
  - cbn in Hlen. lia.
  - cbn [comprehension].
    destruct (nth_error fields i) as [f|] eqn:Hnth; [|reflexivity].
    apply IH.
    + apply Nat.le_succ_l. apply nth_error_Some. congruence.
    + cbn in Hlen. lia.
Qed.

Lemma schema_has_no_repeat : NoDup settings.ws_fields_in_order.
Proof.
  unfold settings.ws_fields_in_order.
  repeat (constructor;
          [cbn; intros H; repeat (destruct H as [H|H]; [discriminate|]); exact H|]).
  constructor.
Qed.

(** X19. Without a table of names, a ticker frame whose payload has no more
    values than the schema has names reaches the sink as the names paired
    with the values in order; a short payload gives a record of the first
    names only. This holds for any schema that names no field twice. *)
Theorem ticker_record_is_zip :
  forall (p : TickerProtocol) (d0 : json) (payload rest : list json),
    NoDup (fields p) -> exchange_ids_to_names p = [] ->
    eq_int d0 1002 = true ->
    (List.length payload <= List.length (fields p))%nat ->
    frame_received (JList (d0 :: JNull :: JList payload :: rest)) p []
    = (Ok tt, [TickerReceived (combine (fields p) payload)]).
Proof.
  intros p d0 payload rest Hnd Hnames H0 Hlen.
  unfold frame_received, bind, lift. cbn [getitem nth_error].
  rewrite H0. cbn [negb is_none].
  unfold parse_ticker, ticker_received, emit, bind, lift, ask, ret.
  cbn [iter].
  pose proof (comprehension_zip (fields p) payload [] (fields p) [] eq_refl
                eq_refl Hnd Hlen) as Hzip.
  cbn [List.length app] in Hzip. rewrite Hzip.
  now rewrite Hnames.
Qed.

Lemma ticker_record_is_zip_witness :
  frame_received
    (JList [JInt 1002; JNull; JList [JInt 7; JStr "0.05"]])
    (ticker_protocol []) []
  = (Ok tt, [TickerReceived [("id", JInt 7); ("last", JStr "0.05")]]).
Proof.
  apply (ticker_record_is_zip (ticker_protocol []) (JInt 1002)
           [JInt 7; JStr "0.05"] []).
  - exact schema_has_no_repeat.
  - reflexivity.
  - reflexivity.
  - cbn. lia.
Defined.

(** X20. With a table of names configured, a ticker frame whose payload
    starts with a whole number id and has at most ten values reaches the
    sink as the schema's names paired with the values, followed by [name]:
    the table's name for that id, or null when it has none. *)
Theorem ticker_record_with_name :
  forall (names : list (Z * string)) (d0 : json) (id : Z)
         (values rest : list json),
    names <> [] -> eq_int d0 1002 = true ->
    (List.length values <= 9)%nat ->
    frame_received (JList (d0 :: JNull :: JList (JInt id :: values) :: rest))
                   (ticker_protocol names) []
    = (Ok tt,
       [TickerReceived
          (combine settings.ws_fields_in_order (JInt id :: values)
             ++ [("name", name_of names id)])]).
Proof.
  intros names d0 id values rest Hnames H0 Hlen.
  unfold frame_received, bind, lift. cbn [getitem nth_error].
  rewrite H0. cbn [negb is_none].
  unfold parse_ticker, ticker_received, emit, bind, lift, ask, ret.
  cbn [iter ticker_protocol fields exchange_ids_to_names].
  assert (Hzip : comprehension settings.ws_fields_in_order 0 (JInt id :: values) []
                 = Ok (combine settings.ws_fields_in_order (JInt id :: values))).
  { apply (comprehension_zip settings.ws_fields_in_order (JInt id :: values)
             [] settings.ws_fields_in_order [] eq_refl eq_refl
             schema_has_no_repeat).
    cbn. lia. }
  rewrite Hzip.
  destruct names as [|kv names]; [contradiction|].
  cbn [app]. unfold settings.ws_fields_in_order at 1. cbn [combine get String.eqb
    Ascii.eqb Bool.eqb].
  unfold names_get. cbn [hashable eq_int].
  rewrite set_fresh; [reflexivity|].
  intros Hin. unfold keys in Hin. apply in_map_iff in Hin.
  destruct Hin as [[k v] [Hk Hin]]. cbn in Hk. subst k.
  apply in_combine_l in Hin. cbn in Hin.
  repeat (destruct Hin as [Hin|Hin]; [discriminate|]). exact Hin.
Qed.

Lemma ticker_record_with_name_witness :
  frame_received
    (JList [JInt 1002; JNull; JList [JInt 148; JStr "0.05"]])
    (ticker_protocol [(7, "BTC_BCN"); (148, "BTC_ETH")]) []
  = (Ok tt, [TickerReceived [("id", JInt 148); ("last", JStr "0.05");
                             ("name", JStr "BTC_ETH")]]).
Proof.
  apply (ticker_record_with_name [(7, "BTC_BCN"); (148, "BTC_ETH")] (JInt 1002)
           148 [JStr "0.05"] []).
  - discriminate.
  - reflexivity.
  - cbn. lia.
Defined.

(** X21. A ticker frame whose payload has more values than the schema has
    names raises IndexError and nothing reaches the sink, with or without a
    table of names. *)
Theorem long_payload_is_rejected :
  forall (p : TickerProtocol) (d0 : json) (payload rest : list json),
    eq_int d0 1002 = true ->
    (List.length (fields p) < List.length payload)%nat ->
    frame_received (JList (d0 :: JNull :: JList payload :: rest)) p []
    = (Raise IndexError, []).
Proof.
  intros p d0 payload rest H0 Hlen.
  unfold frame_received, bind, lift. cbn [getitem nth_error].
  rewrite H0. cbn [negb is_none].
  unfold parse_ticker, bind, lift, ask. cbn [iter].
  rewrite comprehension_overflow; [reflexivity|lia|cbn; lia].
Qed.

Lemma long_payload_is_rejected_witness :
  frame_received
    (JList [JInt 1002; JNull;
            JList [JInt 7; JStr "0.05"; JStr "0.051"; JStr "0.049"; JStr "0.01";
                   JStr "120.5"; JStr "2400.3"; JInt 0; JStr "0.06"; JStr "0.045";
                   JStr "extra"]])
    (ticker_protocol []) []
  = (Raise IndexError, []).
Proof.
  apply (long_payload_is_rejected (ticker_protocol []) (JInt 1002)).
  - reflexivity.
  - cbn. lia.
Defined.

(** X22. On channel 1002 a frame whose second element is not null is a
    control frame: it never raises and never reaches the sink, whatever
    follows in the frame. It logs the subscription when the element equals 1
    and the end of it when the element equals 0, in Python's sense of
    equality (true and 1.0 count as 1), and nothing otherwise. *)
Theorem control_frames_are_logged :
  forall (p : TickerProtocol) (d0 d1 : json) (rest : list json),
    eq_int d0 1002 = true -> d1 <> JNull ->
    frame_received (JList (d0 :: d1 :: rest)) p []
    = (Ok tt,
       if eq_int d1 1 then [LogInfo "Subscribed to ticker stream."]
       else if eq_int d1 0 then [LogInfo "Unsubscribed from ticker stream."]
       else []).
Proof.
  intros p d0 d1 rest H0 H1.
  unfold frame_received, bind, lift, emit, ret. cbn [getitem nth_error].
  rewrite H0. cbn [negb].
  destruct d1; try contradiction; cbn [is_none];
    repeat match goal with
           | |- context [if ?b then _ else _] => destruct b
           end; reflexivity.
Qed.

Lemma control_frames_are_logged_witness :
  frame_received (JList [JInt 1002; JBool true; JStr "anything"])
                 (ticker_protocol []) []
  = (Ok tt, [LogInfo "Subscribed to ticker stream."]).
Proof.
  apply (control_frames_are_logged (ticker_protocol []) (JInt 1002) (JBool true)
           [JStr "anything"]).
  - reflexivity.
  - discriminate.
Defined.

(** X23. Frames the dispatcher cannot index make it raise, and nothing is
    logged or sunk: a JSON object (an error message of the server, say)
    raises KeyError; null, a boolean or a number raises TypeError; an empty
    array raises IndexError, and so does an array that holds the channel
    1002 and nothing else. *)
Theorem unindexable_frames_raise :
  forall p : TickerProtocol,
    (forall o, frame_received (JObj o) p [] = (Raise KeyError, []))
    /\ frame_received JNull p [] = (Raise TypeError, [])
    /\ (forall b, frame_received (JBool b) p [] = (Raise TypeError, []))
    /\ (forall n, frame_received (JInt n) p [] = (Raise TypeError, []))
    /\ (forall q, frame_received (JFloat q) p [] = (Raise TypeError, []))
    /\ frame_received (JList []) p [] = (Raise IndexError, [])
    /\ (forall d0, eq_int d0 1002 = true ->
                   frame_received (JList [d0]) p [] = (Raise IndexError, [])).
Proof.
  intros p. repeat split; try reflexivity.
  intros d0 H0. unfold frame_received, bind, lift. cbn [getitem nth_error].
  now rewrite H0.
Qed.

(** X24. With a table of names configured, a ticker frame with an empty
    payload raises KeyError (the record has no id), and one whose id is an
    array or an object raises TypeError (the id cannot be looked up);
    neither reaches the sink. *)
Theorem name_lookup_errors :
  forall (names : list (Z * string)) (d0 : json) (rest : list json),
    names <> [] -> eq_int d0 1002 = true ->
    frame_received (JList (d0 :: JNull :: JList [] :: rest))
                   (ticker_protocol names) []
    = (Raise KeyError, [])
    /\ (forall (id : json) (values : list json),
           hashable id = false -> (List.length values <= 9)%nat ->
           frame_received (JList (d0 :: JNull :: JList (id :: values) :: rest))
                          (ticker_protocol names) []
           = (Raise TypeError, [])).
Proof.
  intros names d0 rest Hnames H0.
  destruct names as [|kv names]; [contradiction|].
  split.
  - unfold frame_received, bind, lift. cbn [getitem nth_error].
    rewrite H0. reflexivity.
  - intros id values Hid Hlen.
    unfold frame_received, bind, lift. cbn [getitem nth_error].
    rewrite H0. cbn [negb is_none].
    unfold parse_ticker, bind, lift, ask, ret.
    cbn [iter ticker_protocol fields exchange_ids_to_names].
    assert (Hzip : comprehension settings.ws_fields_in_order 0 (id :: values) []
                   = Ok (combine settings.ws_fields_in_order (id :: values))).
    { apply (comprehension_zip settings.ws_fields_in_order (id :: values)
               [] settings.ws_fields_in_order [] eq_refl eq_refl
               schema_has_no_repeat).
      cbn. lia. }
    rewrite Hzip.
    unfold settings.ws_fields_in_order at 1.
    cbn [combine get String.eqb Ascii.eqb Bool.eqb].
    unfold names_get. now rewrite Hid.
Qed.

Lemma name_lookup_errors_witness :
  frame_received (JList [JInt 1002; JNull; JList []])
                 (ticker_protocol [(7, "BTC_BCN")]) []
  = (Raise KeyError, [])
  /\ (forall (id : json) (values : list json),
         hashable id = false -> (List.length values <= 9)%nat ->
         frame_received (JList [JInt 1002; JNull; JList (id :: values)])
                        (ticker_protocol [(7, "BTC_BCN")]) []
         = (Raise TypeError, [])).
Proof.
  apply (name_lookup_errors [(7, "BTC_BCN")] (JInt 1002) []).
  - discriminate.
  - reflexivity.
Defined.

End TickerFacts.

(** ** All the endpoints *)

Module EndpointFacts.
Import Api ApiFacts ExecutorFacts WrapperFacts.

Lemma public_api_one_get (kwargs : dict value) (w : env) (s : state)
      (k : nat) :
  let s' := State (self s) (reads s + k) (log s ++ repeat ReadClock k) in
  (k <= 2)%nat ->
  forall m : API json,
    m w s = _public_api kwargs w s' ->
    ~ In OpenSecrets (performed m w s)
    /\ self (snd (m w s)) = self s
    /\ (exists url, filter is_http (performed m w s) = [HttpGet url])
    /\ fst (m w s) = decoded w (log (snd (m w s))).
Proof.
  intros s' Hk m Hm.
  assert (Hp : performed m w s
               = repeat ReadClock k ++ blocks (self s)
                   ++ [HttpGet (settings.public_url ++ urlencode kwargs)]).
  { apply performed_app. rewrite Hm, public_api_run. subst s'.
    cbn [snd log self]. now rewrite <- !app_assoc. }
  rewrite Hp, Hm, public_api_run. subst s'. cbn [fst snd self log].
  unfold blocks.
  destruct k as [|[|[|k]]]; [| | |lia];
    destruct (rate_limit (self s)); cbn [repeat app filter is_http In];
    (split; [intros H; repeat (destruct H as [H|H]; [discriminate|]); exact H|]);
    (split; [reflexivity|]); (split; [eexists; reflexivity|reflexivity]).
Qed.

Lemma chart_data_is_public (pair : string) (start end_ period : Z)
      (w : env) (s : state) :
  In period candle_periods ->
  exists (k : nat) (query : dict value),
    (k <= 2)%nat
    /\ chart_data pair start end_ period w s
       = _public_api query w
           (State (self s) (reads s + k) (log s ++ repeat ReadClock k)).
Proof.
  intros Hp. unfold chart_data. rewrite (a_candle_period period Hp). cbn [negb].
  unfold bind, positive_or.
  destruct (0 <? start), (0 <? end_); unfold ret, time; cbn [reads log self].
  - exists 0%nat. eexists. split; [lia|].
    cbn [repeat]. rewrite Nat.add_0_r, app_nil_r. now destruct s.
  - exists 1%nat. eexists. split; [lia|].
    cbn [repeat]. now rewrite Nat.add_1_r.
  - exists 1%nat. eexists. split; [lia|].
    cbn [repeat]. now rewrite Nat.add_1_r.
  - exists 2%nat. eexists. split; [lia|].
    cbn [repeat]. rewrite <- app_assoc.
    now replace (reads s + 2)%nat with (S (S (reads s))) by lia.
Qed.

(** X25. Each of the seven public wrappers makes exactly one HTTP request, a
    GET, and returns what the reply decodes to or raises for want of a
    reply; none opens the credential file or changes the client, so they
    work on a client that has no credentials at all. *)
Theorem public_wrappers_need_no_credentials :
  forall (w : env) (s : state) (pair : string) (book depth currency : value)
         (start end_ period : Z),
    In period candle_periods ->
    Forall (fun m : API json =>
              ~ In OpenSecrets (performed m w s)
              /\ self (snd (m w s)) = self s
              /\ (exists url, filter is_http (performed m w s) = [HttpGet url])
              /\ fst (m w s) = decoded w (log (snd (m w s))))
           [ ticker; volume24; order_book book depth;
             public_trade_history pair start end_;
             chart_data pair start end_ period;
             currencies; loan_orders currency ].
Proof.
  intros w s pair book depth currency start end_ period Hp.
  assert (Hpub : forall kwargs,
             ~ In OpenSecrets (performed (_public_api kwargs) w s)
             /\ self (snd (_public_api kwargs w s)) = self s
             /\ (exists url, filter is_http (performed (_public_api kwargs) w s)
                             = [HttpGet url])
             /\ fst (_public_api kwargs w s)
                = decoded w (log (snd (_public_api kwargs w s)))).
  { intros kwargs.
    apply (public_api_one_get kwargs w s 0); [lia|].
    cbn [repeat]. rewrite Nat.add_0_r, app_nil_r. now destruct s. }
  apply Forall_cons; [exact (Hpub _)|].
  apply Forall_cons; [exact (Hpub _)|].
  apply Forall_cons; [exact (Hpub _)|].
  apply Forall_cons; [exact (Hpub _)|].
  apply Forall_cons.
  { destruct (chart_data_is_public pair start end_ period w s Hp)
      as [k [query [Hk E]]].
    now apply (public_api_one_get query w s k). }
  apply Forall_cons; [exact (Hpub _)|].
  apply Forall_cons; [exact (Hpub _)|].
  apply Forall_nil.
Qed.

Lemma public_wrappers_need_no_credentials_witness :
  let s := fresh (Client JNull JNull true) in
  Forall (fun m : API json =>
            ~ In OpenSecrets (performed m quiet_world s)
            /\ self (snd (m quiet_world s)) = self s
            /\ (exists url, filter is_http (performed m quiet_world s)
                            = [HttpGet url])
            /\ fst (m quiet_world s)
               = decoded quiet_world (log (snd (m quiet_world s))))
         [ ticker; volume24; order_book (VStr "all") (VInt 20);
           public_trade_history "btc_eth" 0 0;
           chart_data "btc_eth" 0 0 300;
           currencies; loan_orders (VStr "BTC") ].
Proof.
  apply (public_wrappers_need_no_credentials quiet_world
           (fresh (Client JNull JNull true)) "btc_eth" (VStr "all") (VInt 20)
           (VStr "BTC") 0 0 300).
  left. reflexivity.
Defined.

Ltac posted_command H :=
  split;
  [ rewrite (posted_parameter _ _ _ _ _ _ _ H) by discriminate;
    unfold trade_history_kwargs, move_order_kwargs, withdraw_kwargs,
      available_account_balances_kwargs, order_kwargs;
    repeat match goal with
           | |- context [if ?b then _ else _] => destruct b
           end;
    reflexivity
  | apply trading_api_posts in H; subst; apply get_set_same ].

(** X26. Every trading wrapper modelled here posts, if it posts at all, a
    mapping whose [command] is the exchange command of that wrapper and
    whose [nonce] is the nonce of the call's clock reading. *)
Theorem trading_wrappers_post_their_command :
  forall (w : env) (s : state) (pair currency : string)
         (account order_number rate amount lending_rate address payment_id
            from_account to_account duration : value)
         (start end_ limit whole_amount : Z) (fok ioc po auto_renew : bool),
    Forall (fun mc : API json * string =>
              forall url headers data,
                In (HttpPost url headers data) (performed (fst mc) w s) ->
                get data "command" = Some (VStr (snd mc))
                /\ get data "nonce"
                   = Some (VInt (nonce_at w (clock w (reads s)))))
           [ (balances, "returnBalances");
             (complete_balances account, "returnCompleteBalances");
             (deposit_addresses, "returnDepositAddresses");
             (generate_new_address currency, "generateNewAddress");
             (open_orders pair, "returnOpenOrders");
             (trade_history pair start end_ limit, "returnTradeHistory");
             (order_trades order_number, "returnOrderTrades");
             (buy pair rate amount fok ioc po, "buy");
             (sell pair rate amount fok ioc po, "sell");
             (cancel_order order_number, "cancelOrder");
             (move_order order_number rate whole_amount ioc po, "moveOrder");
             (withdraw currency amount address payment_id, "withdraw");
             (fee_info, "returnFeeInfo");
             (available_account_balances account,
              "returnAvailableAccountBalances");
             (tradable_balances, "returnTradableBalances");
             (transfer_balance currency amount from_account to_account,
              "transferBalance");
             (margin_account_summary, "returnMarginAccountSummary");
             (margin_buy pair rate amount lending_rate, "marginBuy");
             (margin_sell pair rate amount lending_rate, "marginSell");
             (get_margin_position pair, "getMarginPosition");
             (close_margin_position pair, "closeMarginPosition");
             (create_loan_offer currency amount lending_rate auto_renew duration,
              "createLoanOffer");
             (cancel_loan_offer order_number, "cancelLoanOffer");
             (open_loan_offers, "returnOpenLoanOffers");
             (active_loans, "returnActiveLoans");
             (toggle_loan_auto_renew order_number, "toggleAutoRenew") ].
Proof.
  intros.
  repeat (constructor;
          [cbn [fst snd]; intros url headers data H;
           unfold balances, complete_balances, deposit_addresses,
             generate_new_address, open_orders, trade_history, order_trades,
             buy, sell, cancel_order, move_order, withdraw, fee_info,
             available_account_balances, tradable_balances, transfer_balance,
             margin_account_summary, margin_buy, margin_sell,
             get_margin_position, close_margin_position, create_loan_offer,
             cancel_loan_offer, open_loan_offers, active_loans,
             toggle_loan_auto_renew in H;
           posted_command H|]).
  constructor.
Qed.

End EndpointFacts.

(** ** The rate limiter *)

Module LimiterFacts.
Import Utils.






End LimiterFacts.

(* ================================================================== *)
(** ** The signature against the standards *)

Module SignatureFacts.

(** *** Words *)

Lemma mask_is_modulus (x : Z) : Z.land x FIPS180.mask = x mod SHA512.w64.
Proof. unfold FIPS180.mask, SHA512.w64. now rewrite Z.land_ones by lia. Qed.

Lemma add_is_plus (x y : Z) : SHA512.add x y = FIPS180.plus x y.
Proof. unfold SHA512.add, FIPS180.plus. now rewrite mask_is_modulus. Qed.

Lemma rotr_is_ROTR (n x : Z) : SHA512.rotr n x = FIPS180.ROTR n x.
Proof. unfold SHA512.rotr, FIPS180.ROTR. now rewrite mask_is_modulus. Qed.

Lemma shr_is_SHR (n x : Z) : 0 <= n -> SHA512.shr n x = FIPS180.SHR n x.
Proof. intros Hn. unfold SHA512.shr, FIPS180.SHR. now apply Z.shiftr_div_pow2. Qed.

Lemma Ch_agrees (x y z : Z) : SHA512.Ch x y z = FIPS180.Ch x y z.
Proof. reflexivity. Qed.

Lemma Maj_agrees (x y z : Z) : SHA512.Maj x y z = FIPS180.Maj x y z.
Proof.
  unfold SHA512.Maj, FIPS180.Maj. apply Z.bits_inj'. intros i Hi.
  rewrite !Z.lxor_spec, !Z.lor_spec, !Z.land_spec.
  now destruct (Z.testbit x i), (Z.testbit y i), (Z.testbit z i).
Qed.

Lemma Sigma0_agrees (x : Z) : SHA512.Sigma0 x = FIPS180.Sigma0 x.
Proof. unfold SHA512.Sigma0, FIPS180.Sigma0. now rewrite !rotr_is_ROTR. Qed.

Lemma Sigma1_agrees (x : Z) : SHA512.Sigma1 x = FIPS180.Sigma1 x.
Proof. unfold SHA512.Sigma1, FIPS180.Sigma1. now rewrite !rotr_is_ROTR. Qed.

Lemma sigma0_agrees (x : Z) : SHA512.sigma0 x = FIPS180.sigma0 x.
Proof.
  unfold SHA512.sigma0, FIPS180.sigma0.
  now rewrite !rotr_is_ROTR, shr_is_SHR by lia.
Qed.

Lemma sigma1_agrees (x : Z) : SHA512.sigma1 x = FIPS180.sigma1 x.
Proof.
  unfold SHA512.sigma1, FIPS180.sigma1.
  now rewrite !rotr_is_ROTR, shr_is_SHR by lia.
Qed.

(** Sums reduced at every step and sums reduced once. *)
Lemma sum_of_four (a b c d : Z) :
  SHA512.add (SHA512.add a b) (SHA512.add c d)
  = Z.land (a + b + c + d) FIPS180.mask.
Proof.
  rewrite mask_is_modulus. unfold SHA512.add.
  rewrite <- Z.add_mod by (unfold SHA512.w64; lia).
  f_equal. lia.
Qed.

Lemma sum_of_five (a b c d e : Z) :
  SHA512.add (SHA512.add (SHA512.add a b) (SHA512.add c d)) e
  = Z.land (a + b + c + d + e) FIPS180.mask.
Proof.
  rewrite sum_of_four, !mask_is_modulus. unfold SHA512.add.
  rewrite Z.add_mod_idemp_l by (unfold SHA512.w64; lia).
  reflexivity.
Qed.


(** *** Bytes and numbers *)

Lemma be_bytes_are_digits (n : nat) (x : Z) : be_bytes n x = FIPS180.digits n x.
Proof.
  induction n as [|n IH]; [reflexivity|].
  cbn [be_bytes FIPS180.digits]. rewrite IH. f_equal.
  rewrite Z.shiftr_div_pow2 by lia.
  now rewrite (Z.pow_mul_r 2 8) by lia.
Qed.

Lemma be_word_from (b : bytes) (acc : Z) :
  be_word b acc = acc * 256 ^ Z.of_nat (List.length b) + FIPS180.number b.
Proof.
  revert acc. induction b as [|x r IH]; intros acc.
  - cbn [be_word FIPS180.number List.length]. change (256 ^ Z.of_nat 0) with 1. lia.
  - cbn [be_word FIPS180.number List.length]. rewrite IH.
    rewrite Nat2Z.inj_succ, Z.pow_succ_r by lia. ring.
Qed.

Lemma be_word_is_number (b : bytes) : be_word b 0 = FIPS180.number b.
Proof. rewrite be_word_from. lia. Qed.

(** *** Padding *)

Lemma zero_bits (len : Z) :
  ((896 - (8 * len + 1)) mod 1024) / 8 = (111 - len) mod 128.
Proof.
  pose proof (Z.div_mod (111 - len) 128 ltac:(lia)) as E.
  pose proof (Z.mod_pos_bound (111 - len) 128 ltac:(lia)) as B.
  replace (896 - (8 * len + 1))
    with ((8 * ((111 - len) mod 128) + 7) + ((111 - len) / 128) * 1024) by lia.
  rewrite Z.mod_add by lia.
  rewrite Z.mod_small by lia.
  replace (8 * ((111 - len) mod 128) + 7)
    with (7 + ((111 - len) mod 128) * 8) by lia.
  rewrite Z.div_add by lia. reflexivity.
Qed.

Lemma pad_is_padded (m : bytes) : SHA512.pad m = FIPS180.padded m.
Proof.
  unfold SHA512.pad, FIPS180.padded. cbv zeta.
  now rewrite zero_bits, be_bytes_are_digits.
Qed.

Lemma pad_length (m : bytes) :
  exists q : nat, List.length (SHA512.pad m) = (128 * q)%nat.
Proof.
  unfold SHA512.pad. cbv zeta.
  rewrite !length_app, repeat_length, TextFacts.be_bytes_length.
  cbn [List.length].
  set (len := Z.of_nat (List.length m)).
  pose proof (Z.div_mod (111 - len) 128 ltac:(lia)) as E.
  pose proof (Z.mod_pos_bound (111 - len) 128 ltac:(lia)) as B.
  exists (Z.to_nat (- ((111 - len) / 128) + 1)).
  subst len. lia.
Qed.

(** *** Pieces of a list *)

Lemma chunks_are_slices {A} (n : nat) :
  (0 < n)%nat ->
  forall (q fuel : nat) (l : list A),
    List.length l = (n * q)%nat -> (q <= fuel)%nat ->
    chunks fuel n l = map (fun i => FIPS180.slice n i l) (seq 0 q).
Proof.
  intros Hn. induction q as [|q IH]; intros fuel l Hl Hq.
  - rewrite Nat.mul_0_r in Hl. apply length_zero_iff_nil in Hl. subst l.
    now destruct fuel.
  - destruct fuel as [|fuel]; [lia|].
    destruct l as [|a l]; [cbn [List.length] in Hl; lia|].
    cbn [chunks seq map]. f_equal.
    + unfold FIPS180.slice. now rewrite Nat.mul_0_r.
    + rewrite (IH fuel (skipn n (a :: l))); [|rewrite length_skipn; lia|lia].
      rewrite <- seq_shift, map_map. apply map_ext. intros i.
      unfold FIPS180.slice. rewrite skipn_skipn. do 2 f_equal. lia.
Qed.

Lemma slice_length {A} (n q i : nat) (l : list A) :
  List.length l = (n * q)%nat -> (i < q)%nat ->
  List.length (FIPS180.slice n i l) = n.
Proof.
  intros Hl Hi. unfold FIPS180.slice. rewrite length_firstn, length_skipn.
  assert (n * S i <= n * q)%nat by (apply Nat.mul_le_mono_l; lia).
  lia.
Qed.

Lemma blocks_of_padded (m : bytes) :
  chunks (List.length (SHA512.pad m)) SHA512.block_size (SHA512.pad m)
  = FIPS180.blocks (FIPS180.padded m)
  /\ Forall (fun b => List.length b = 128%nat) (FIPS180.blocks (FIPS180.padded m)).
Proof.
  destruct (pad_length m) as [q Hq]. rewrite <- pad_is_padded.
  unfold FIPS180.blocks. rewrite Hq.
  replace (128 * q / 128)%nat with q
    by (rewrite Nat.mul_comm; symmetry; apply Nat.div_mul; lia).
  split.
  - apply chunks_are_slices; [unfold SHA512.block_size; lia|exact Hq|lia].
  - apply Forall_forall. intros b Hb. apply in_map_iff in Hb.
    destruct Hb as [i [<- Hi]]. apply in_seq in Hi.
    apply (slice_length 128 q); [exact Hq|lia].
Qed.

Lemma words_of_block (block : bytes) :
  List.length block = 128%nat ->
  map (fun b => be_word b 0) (chunks 16 8 block) = FIPS180.words block.
Proof.
  intros Hb. rewrite (chunks_are_slices 8 ltac:(lia) 16 16 block) by lia.
  unfold FIPS180.words. rewrite map_map. apply map_ext. intros j.
  apply be_word_is_number.
Qed.

Lemma words_length (block : bytes) : List.length (FIPS180.words block) = 16%nat.
Proof. unfold FIPS180.words. now rewrite length_map, length_seq. Qed.


(** *** The message schedule *)

Lemma next_word_agrees (w : list Z) :
  (16 <= List.length w)%nat ->
  SHA512.add
    (SHA512.add (SHA512.sigma1 (nth 1 (rev w) 0)) (nth 6 (rev w) 0))
    (SHA512.add (SHA512.sigma0 (nth 14 (rev w) 0)) (nth 15 (rev w) 0))
  = FIPS180.next_word w.
Proof.
  intros Hw. unfold FIPS180.next_word. cbv zeta.
  rewrite sum_of_four, sigma0_agrees, sigma1_agrees.
  rewrite !rev_nth by lia. reflexivity.
Qed.

Lemma schedule_is_extend (n : nat) :
  forall w : list Z,
    (16 <= List.length w)%nat ->
    rev (SHA512.schedule n (rev w)) = FIPS180.extend n w.
Proof.
  induction n as [|n IH]; intros w Hw.
  - cbn [SHA512.schedule FIPS180.extend]. apply rev_involutive.
  - cbn [SHA512.schedule FIPS180.extend]. cbv zeta.
    rewrite (next_word_agrees w Hw).
    rewrite <- (IH (w ++ [FIPS180.next_word w]))
      by (rewrite length_app; cbn [List.length]; lia).
    now rewrite rev_unit.
Qed.

Lemma extend_length (n : nat) :
  forall w : list Z, List.length (FIPS180.extend n w) = (List.length w + n)%nat.
Proof.
  induction n as [|n IH]; intros w; cbn [FIPS180.extend]; [lia|].
  rewrite IH, length_app. cbn [List.length]. lia.
Qed.

(** *** The rounds *)

Lemma round_is_step (W : list Z) (s : SHA512.regs) (t : nat) :
  SHA512.variables (SHA512.round s (nth t SHA512.K 0, nth t W 0))
  = FIPS180.step W (SHA512.variables s) t.
Proof.
  unfold SHA512.round, FIPS180.step, SHA512.variables. cbv zeta.
  cbn [SHA512.ra SHA512.rb SHA512.rc SHA512.rd SHA512.re SHA512.rf SHA512.rg SHA512.rh].
  rewrite sum_of_five, Sigma0_agrees, Sigma1_agrees, Maj_agrees, !add_is_plus.
  reflexivity.
Qed.

Lemma rounds_are_steps (W : list Z) (ts : list nat) :
  forall s : SHA512.regs,
    SHA512.variables
      (fold_left SHA512.round (map (fun t => (nth t SHA512.K 0, nth t W 0)) ts) s)
    = fold_left (FIPS180.step W) ts (SHA512.variables s).
Proof.
  induction ts as [|t ts IH]; intros s; [reflexivity|].
  cbn [map fold_left]. now rewrite IH, round_is_step.
Qed.

Lemma combine_by_index (a : list Z) :
  forall (b : list Z) (n : nat),
    List.length a = n -> List.length b = n ->
    combine a b = map (fun t => (nth t a 0, nth t b 0)) (seq 0 n).
Proof.
  induction a as [|x a IH]; intros b n Ha Hb.
  - cbn [List.length] in Ha. now subst n.
  - destruct b as [|y b]; cbn [List.length] in Ha, Hb; [lia|].
    destruct n as [|n]; [lia|].
    cbn [combine seq map nth]. f_equal.
    rewrite <- seq_shift, map_map. apply IH; lia.
Qed.


(** *** The compression function and the digest *)

Lemma compress_agrees (h : list Z) (block : bytes) :
  List.length h = 8%nat -> List.length block = 128%nat ->
  SHA512.compress h block = FIPS180.compress h block.
Proof.
  intros Hh Hb.
  destruct h as [|a [|b [|c [|d [|e [|f [|g [|hh [|? ?]]]]]]]]]; try discriminate Hh.
  unfold SHA512.compress, FIPS180.compress, FIPS180.schedule. cbv zeta.
  rewrite (words_of_block block Hb).
  rewrite schedule_is_extend by (rewrite words_length; lia).
  assert (HW : List.length (FIPS180.extend 64 (FIPS180.words block)) = 80%nat)
    by (rewrite extend_length, words_length; reflexivity).
  revert HW. generalize (FIPS180.extend 64 (FIPS180.words block)) as W. intros W HW.
  rewrite (combine_by_index SHA512.K W 80 eq_refl HW).
  pose proof (rounds_are_steps W (seq 0 80)
                (SHA512.regs_of [a; b; c; d; e; f; g; hh])) as E.
  assert (V : SHA512.variables (SHA512.regs_of [a; b; c; d; e; f; g; hh])
              = [a; b; c; d; e; f; g; hh]) by reflexivity.
  rewrite V in E. rewrite <- E. clear E V.
  generalize (fold_left SHA512.round
                (map (fun t => (nth t SHA512.K 0, nth t W 0)) (seq 0 80))
                (SHA512.regs_of [a; b; c; d; e; f; g; hh])) as s.
  intros s. unfold SHA512.variables. cbn [combine map fst snd].
  rewrite <- !add_is_plus. reflexivity.
Qed.

Lemma fold_compress_agrees (blocks : list bytes) :
  Forall (fun b => List.length b = 128%nat) blocks ->
  forall h : list Z,
    List.length h = 8%nat ->
    fold_left SHA512.compress blocks h = fold_left FIPS180.compress blocks h.
Proof.
  induction 1 as [|b blocks Hb _ IH]; intros h Hh; [reflexivity|].
  cbn [fold_left]. rewrite <- (compress_agrees h b Hh Hb).
  apply IH. reflexivity.
Qed.

Lemma digest_is_sha512 (m : bytes) : SHA512.digest m = FIPS180.sha512 m.
Proof.
  unfold SHA512.digest, FIPS180.sha512. cbv zeta.
  destruct (blocks_of_padded m) as [E F]. rewrite E.
  rewrite (fold_compress_agrees _ F) by reflexivity.
  apply flat_map_ext. intros x. apply be_bytes_are_digits.
Qed.

(** *** The keyed hash *)

Lemma translate_is_xor (x : Z) (l : bytes) :
  HMAC.translate x l = RFC2104.xor l (repeat x (List.length l)).
Proof.
  unfold RFC2104.xor.
  induction l as [|y l IH]; [reflexivity|].
  cbn [HMAC.translate List.length repeat combine map fst snd].
  fold (HMAC.translate x l). rewrite IH. f_equal. apply Z.lxor_comm.
Qed.

Lemma pad_key_length (key : bytes) : List.length (HMAC.pad_key key) = 128%nat.
Proof.
  unfold HMAC.pad_key, SHA512.block_size. cbv zeta.
  destruct (Nat.ltb_spec 128 (List.length key)) as [Hlong|Hshort];
    rewrite length_app, repeat_length.
  - rewrite TextFacts.digest_length. reflexivity.
  - lia.
Qed.

Lemma pad_key_is_block_key (key : bytes) :
  HMAC.pad_key key = RFC2104.block_key FIPS180.sha512 key.
Proof.
  unfold HMAC.pad_key, RFC2104.block_key, SHA512.block_size, RFC2104.B.
  cbv zeta. now rewrite digest_is_sha512.
Qed.

Lemma hmac_is_rfc2104 (key msg : bytes) :
  HMAC.digest (HMAC.new key msg) = RFC2104.hmac FIPS180.sha512 key msg.
Proof.
  rewrite hmac_new_is_rfc2104. unfold HMAC.hmac_sha512, RFC2104.hmac.
  rewrite !translate_is_xor, pad_key_length, pad_key_is_block_key.
  now rewrite !digest_is_sha512.
Qed.

(** *** Texts *)

Lemma byte_of_char (c : ascii) :
  Z.of_N (Byte.to_N (byte_of_ascii c)) = Z.of_N (N_of_ascii c).
Proof. destruct c as [[] [] [] [] [] [] [] []]; reflexivity. Qed.

Lemma encode_is_utf8 (s : string) : encode s = Standard.utf8 s.
Proof.
  unfold encode, Standard.utf8.
  induction s as [|c s IH]; [reflexivity|].
  cbn [list_ascii_of_string list_byte_of_string map].
  now rewrite IH, byte_of_char.
Qed.

Lemma hexdigit_is_pick (d : Z) :
  0 <= d < 16 -> hexdigit d = Standard.pick "0123456789abcdef" d.
Proof.
  intros Hd. apply Ascii.eqb_eq.
  apply (TextFacts.below_16
           (fun d => Ascii.eqb (hexdigit d) (Standard.pick "0123456789abcdef" d)));
    [exact Hd|reflexivity].
Qed.

Lemma HEXDIGIT_is_pick (d : Z) :
  0 <= d < 16 -> HEXDIGIT d = Standard.pick "0123456789ABCDEF" d.
Proof.
  intros Hd. apply Ascii.eqb_eq.
  apply (TextFacts.below_16
           (fun d => Ascii.eqb (HEXDIGIT d) (Standard.pick "0123456789ABCDEF" d)));
    [exact Hd|reflexivity].
Qed.

Lemma concat_cons (x : string) (l : list string) :
  String.concat "" (x :: l) = (x ++ String.concat "" l)%string.
Proof.
  destruct l as [|y l]; [|reflexivity].
  cbn [String.concat]. now rewrite TextFacts.sapp_nil_r.
Qed.

Lemma hex_is_hexadecimal (b : bytes) :
  Forall (fun x => 0 <= x < 256) b -> hex b = Standard.hexadecimal b.
Proof.
  unfold Standard.hexadecimal.
  induction 1 as [|x b Hx _ IH]; [reflexivity|].
  cbn [hex map]. rewrite concat_cons, IH.
  destruct (TextFacts.nibbles x Hx) as [Hh Hl].
  now rewrite (hexdigit_is_pick _ Hh), (hexdigit_is_pick _ Hl).
Qed.

Lemma quote_plus_char_is_escape (c : ascii) :
  Text.quote_plus_char c = Standard.escape c.
Proof. destruct c as [[] [] [] [] [] [] [] []]; reflexivity. Qed.

Lemma quote_plus_is_escaped (s : string) : Py.quote_plus s = Standard.escaped s.
Proof.
  rewrite TextFacts.quote_plus_by_char. unfold Standard.escaped.
  induction s as [|c s IH]; [reflexivity|].
  cbn [Text.quote_plus_chars list_ascii_of_string map].
  now rewrite concat_cons, IH, quote_plus_char_is_escape.
Qed.

Lemma join_is_concat (sep : string) (l : list string) :
  Py.join sep l = String.concat sep l.
Proof.
  induction l as [|x l IH]; [reflexivity|].
  destruct l as [|y l]; [reflexivity|].
  cbn [Py.join String.concat] in *. now rewrite IH.
Qed.

Lemma urlencode_is_query_string (d : Py.dict Py.value) :
  Py.urlencode d = Standard.query_string d.
Proof.
  unfold Py.urlencode, Standard.query_string. rewrite join_is_concat.
  f_equal. apply map_ext. intros [k v]. cbn [fst snd].
  now rewrite !quote_plus_is_escaped.
Qed.

(** *** The signature *)

(** C1. For every secret and mapping, [sign] returns the two lowercase
    hexadecimal digits a byte of HMAC (RFC 2104) over SHA-512 (FIPS 180-4),
    keyed by the UTF-8 bytes of the secret, of the UTF-8 bytes of the query
    string of the mapping; so two calls on the same secret and the same
    mapping return the same text. The standard side gives the digests that
    hashlib and hmac give on the reference inputs, a key longer than a
    block and values of every kind among them. *)
Theorem sign_is_hmac_sha512 :
  (forall (secret : string) (data : Py.dict Py.value),
      Api.sign secret data = Standard.signature secret data
      /\ (forall (secret' : string) (data' : Py.dict Py.value),
             secret' = secret -> data' = data ->
             Api.sign secret' data' = Api.sign secret data))
  /\ Standard.signature "secret"
       [("command", Py.VStr "returnBalances"); ("nonce", Py.VInt 1500000000000)]
     = "35f2de783d4232a31a763b0fdd09422c659550703f82ac40b325745c914cf87e57fa887964668b0e54b416bdf1b8de42df94a0ca57a3fa1efbe35865c14431e2"
  /\ Standard.signature (string_of_list_ascii (repeat "k"%char 130))
       [("a b", Py.VStr "x/y~z"); ("k", Py.VBool true); ("n", Py.VNone);
        ("i", Py.VInt (-12)); ("u", Py.VStr "é")]
     = "d469c7dc28f979a6874f5f1386848c891eb383b89e971e771d4053859d9d193302054b666092d535768742080c5571cc8af5f0ff5bfd7062fa9d3776888b2df8"
  /\ Standard.signature "" []
     = "b936cee86c9f87aa5d3c6f2e84cb5a4239a5fe50480a6ec66b70ab5b1f4ac6730c6c515421b327ec1d69402e53dfb49ad7381eb067b338fd7b0cb22247225d47".
Proof.
  split; [|repeat split; vm_compute; reflexivity].
  intros secret data. split.
  - unfold Api.sign, Standard.signature, HMAC.hexdigest.
    rewrite hex_is_hexadecimal by apply TextFacts.digest_range.
    now rewrite hmac_is_rfc2104, !encode_is_utf8, urlencode_is_query_string.
  - intros secret' data' -> ->. reflexivity.
Qed.

Lemma sign_is_hmac_sha512_witness :
  let secret := "secret" in
  let data := [("command", Py.VStr "returnBalances");
               ("nonce", Py.VInt 1500000000000)] in
  Api.sign secret data = Standard.signature secret data
  /\ Api.sign secret data = Api.sign secret data.
Proof.
  intros secret data.
  destruct (proj1 sign_is_hmac_sha512 secret data) as [E D].
  split; [exact E|exact (D secret data eq_refl eq_refl)].
Defined.

End SignatureFacts.
